(** * zipline.optimize.factory: the up/down trade source and the
      predictable test zipline

    A shallow embedding of [src/zipline/optimize/factory.py].

    - Python [int] is [Z].  The price, which the source computes with
      [amplitude/2.], is a Python [float]: an IEEE 754 binary64 number,
      modelled by [spec_float] with the operations of the Standard
      Library's [SpecFloat] at precision 53 and maximal exponent 1024
      (round to nearest, ties to even).  [float_value] gives the rational
      a finite float stands for.  The conversion of an [int] that rounds
      beyond the binary64 range raises [OverflowError] in Python;
      [float_of_int] is an infinity there and [float_overflows] says so.
    - A [dict] is a [gmap string Value]; dict objects live in a store
      indexed by references, because [create_predictable_zipline] copies
      its argument and then mutates the copy.
    - Exceptions are the [Raise] results of a state and error monad; the
      state survives a raise, as in Python.
    - The collaborators imported from other modules are the [Variable]s of
      the sections. *)

From Stdlib Require Import ZArith QArith List Lia SpecFloat.
From stdpp Require Import base option list gmap strings pretty.

Set Default Proof Using "Type".

(** ** Data model *)

(** [datetime] and [timedelta] count microseconds, the resolution of
    Python's [datetime] module. *)
Definition datetime := Z.
Definition timedelta_t := Z.

(** [timedelta(days = d)] *)
Definition timedelta (days : Z) : timedelta_t := (days * 86400000000)%Z.

(** ** Python floats *)

Definition float := spec_float.

(** [float(z)], the conversion mixed arithmetic applies to an [int]
    operand: the nearest binary64 number, an infinity when that is beyond
    the range.  Python raises [OverflowError] in the latter case. *)
Definition float_of_int (z : Z) : float := binary_normalize 53 1024 z 0 false.

Definition float_overflows (z : Z) : bool :=
  match float_of_int z with
  | S754_infinity _ => true
  | _ => false
  end.

Definition float_add : float -> float -> float := SFadd 53 1024.
Definition float_sub : float -> float -> float := SFsub 53 1024.
Definition float_div : float -> float -> float := SFdiv 53 1024.

(** The literal [2.]: mantissa 2^52, exponent -51. *)
Definition float_two : float := S754_finite false 4503599627370496 (-51).

(** The rational a finite float stands for. *)
Definition float_value (f : float) : option Q :=
  match f with
  | S754_zero _ => Some 0%Q
  | S754_finite s m e =>
      Some (if (0 <=? e)%Z
            then inject_Z (cond_Zopp s (Zpos m) * 2 ^ e)
            else Qmake (cond_Zopp s (Zpos m)) (Z.to_pos (2 ^ (- e))))
  | _ => None
  end.

(** [f] is finite and stands for [q]. *)
Definition has_value (f : float) (q : Q) : Prop :=
  exists q', float_value f = Some q' /\ (q' == q)%Q.

(** ** Data model, continued *)

(** Modelled from the spec: the members of [zipline.protocol.DATASOURCE_TYPE]
    are declared outside this module; only [TRADE] is used here. *)
Inductive DATASOURCE_TYPE : Set :=
  | TRADE
  | DATASOURCE_OTHER (tag : string).

(** Modelled from the spec: the members of
    [zipline.finance.trading.SIMULATION_STYLE] are declared outside this
    module; only [FIXED_SLIPPAGE] is used here. *)
Inductive SIMULATION_STYLE : Set :=
  | FIXED_SLIPPAGE
  | SIMULATION_STYLE_OTHER (tag : string).

(** Modelled from the spec: the trading environment is an object exposing
    [first_open] and a mutable [period_end]; its class is declared in
    [zipline.finance.trading].  Whatever else the calendar holds is part of
    the advancement function, a section variable below. *)
Record TradingEnvironment : Set := mkEnv {
  first_open : datetime;
  period_end : datetime
}.

(** [trading_environment.period_end = cur] *)
Definition set_period_end (e : TradingEnvironment) (cur : datetime)
  : TradingEnvironment :=
  {| first_open := first_open e; period_end := cur |}.

(** Modelled from the spec: [BuySellAlgorithm(sid, amount, offset)] is
    declared in [zipline.optimize.algorithms]; the object is represented by
    its constructor arguments. *)
Inductive Algorithm (V : Type) : Type :=
  | BuySellAlgorithm (sid : V) (amount : Z) (offset : Z)
  | UserAlgorithm (name : string).
Arguments BuySellAlgorithm {V} sid amount offset.
Arguments UserAlgorithm {V} name.

(** The [zp.ndict] built in the loop of [create_updown_trade_source];
    [V] is the type of the security id, any Python value. *)
Record Event (V : Type) : Type := mkEvent {
  type : DATASOURCE_TYPE;
  sid : V;
  price : float;
  volume : Z;
  dt : datetime
}.
Arguments mkEvent {V} type sid price volume dt.
Arguments type {V} e.
Arguments sid {V} e.
Arguments price {V} e.
Arguments volume {V} e.
Arguments dt {V} e.

(** Modelled from the spec: [SpecificEquityTrades(source_id, event_list)] is
    declared in [zipline.finance.sources]; the object is represented by the
    two arguments of its constructor. *)
Record SpecificEquityTrades (V : Type) : Type := mkSource {
  source_id : string;
  event_list : list (Event V)
}.
Arguments mkSource {V} source_id event_list.
Arguments source_id {V} s.
Arguments event_list {V} s.

(** The values a configuration can hold.  [VObject] is an object of a class
    that is not modelled further and has no arithmetic. *)
#[warnings="-register-all"]
Inductive Value : Type :=
  | VNone
  | VInt (z : Z)
  | VStr (s : string)
  | VAlgorithm (a : Algorithm Value)
  | VSource (s : SpecificEquityTrades Value)
  | VEnvironment (e : TradingEnvironment)
  | VStyle (s : SIMULATION_STYLE)
  | VObject (name : string).

(** ** [itertools.cycle] *)

(** The iterator state of [cycle(saved)]: the saved items and the position
    of the next one.  [cycle_next] is [it.next()]: it returns the item and
    the advanced iterator.  [cycle] of a non-empty list never raises
    [StopIteration]; the default [0] of [nth] is not reachable for the list
    [[1; -1]] used here. *)
Record cycle_iter : Set := mkCycle {
  saved : list Z;
  pos : nat
}.

Definition cycle (l : list Z) : cycle_iter := {| saved := l; pos := 0 |}.

Definition cycle_next (it : cycle_iter) : Z * cycle_iter :=
  (nth (pos it) (saved it) 0%Z,
   {| saved := saved it; pos := S (pos it) mod length (saved it) |}).

(** ** [create_updown_trade_source] *)

Section UpDownTradeSource.

(** [zipline.utils.factory.get_next_trading_dt(current, interval,
    trading_environment)]: the next valid trading instant. *)
Variable get_next_trading_dt :
  datetime -> timedelta_t -> TradingEnvironment -> datetime.

(** Python's [str] on the objects that are not modelled further. *)
Variable repr : Value -> string.

Definition str (v : Value) : string :=
  match v with
  | VNone => "None"
  | VInt z => pretty z
  | VStr s => s
  | _ => repr v
  end.

(** The local variables the [for] loop reads and writes. *)
Record LoopState : Type := mkLoop {
  l_cur : datetime;
  l_events : list (Event Value);
  l_price : float;
  l_change : cycle_iter
}.

Section Body.
Variables (sid0 : Value) (trading_environment : TradingEnvironment)
          (amplitude : Z) (one_day : timedelta_t).

Definition volume0 : Z := 1000.

(** One iteration, lines 52 to 64. *)
Definition loop_body (st : LoopState) : LoopState :=
  let cur := get_next_trading_dt (l_cur st) one_day trading_environment in
  let event := {| type := TRADE;
                  sid := sid0;
                  price := l_price st;
                  volume := volume0;
                  dt := cur |} in
  let events := l_events st ++ [event] in
  let '(c, change) := cycle_next (l_change st) in
  {| l_cur := cur;
     l_events := events;
     l_price := float_add (l_price st) (float_of_int (c * amplitude));
     l_change := change |}.

(** The event an iteration started in state [st] appends. *)
Definition emitted (st : LoopState) : Event Value :=
  {| type := TRADE; sid := sid0; price := l_price st; volume := volume0;
     dt := get_next_trading_dt (l_cur st) one_day trading_environment |}.

(** [for i in xrange(n): body] *)
Fixpoint for_xrange (n : nat) (st : LoopState) : LoopState :=
  match n with
  | O => st
  | S n' => for_xrange n' (loop_body st)
  end.
End Body.

(** [xrange(n)] has [max(n, 0)] elements. *)
Definition xrange_len (n : Z) : nat := Z.to_nat n.

(** The function returns the source; the environment it mutated is
    returned with it.  The function is modelled on the arguments on which
    line 43 does not raise: for a [base_price] or an [amplitude] with
    [float_overflows] Python raises [OverflowError] there, where this
    definition goes on with an infinity; [call_create_updown_trade_source]
    below raises it for the call from [create_predictable_zipline]. *)
Definition create_updown_trade_source
    (sid0 : Value) (trade_count : Z) (trading_environment : TradingEnvironment)
    (base_price amplitude : Z)
  : SpecificEquityTrades Value * TradingEnvironment :=
  let price0 := float_sub (float_of_int base_price)
                          (float_div (float_of_int amplitude) float_two) in
  let cur0 := first_open trading_environment in
  let one_day := timedelta 1 in
  let change0 := cycle [1; -1]%Z in
  let st := for_xrange sid0 trading_environment amplitude one_day
              (xrange_len (trade_count + 2))
              {| l_cur := cur0; l_events := []; l_price := price0;
                 l_change := change0 |} in
  let trading_environment' := set_period_end trading_environment (l_cur st) in
  let source := {| source_id := "updown_" +:+ str sid0;
                   event_list := l_events st |} in
  (source, trading_environment').

(** The values of the local variables when the loop is entered, and the
    state after [i] iterations. *)
Definition loop_entry (trading_environment : TradingEnvironment)
    (base_price amplitude : Z) : LoopState :=
  {| l_cur := first_open trading_environment;
     l_events := [];
     l_price := float_sub (float_of_int base_price)
                          (float_div (float_of_int amplitude) float_two);
     l_change := cycle [1; -1]%Z |}.

Definition state_after (sid0 : Value)
    (trading_environment : TradingEnvironment) (base_price amplitude : Z)
    (i : nat) : LoopState :=
  for_xrange sid0 trading_environment amplitude (timedelta 1) i
    (loop_entry trading_environment base_price amplitude).

End UpDownTradeSource.

Definition prices (s : SpecificEquityTrades Value) : list float :=
  price <$> event_list s.

Definition timestamps (s : SpecificEquityTrades Value) : list datetime :=
  dt <$> event_list s.

(** ** Exceptions, the store of dict objects, and the monad *)

Inductive Exception : Set :=
  | KeyError (key : string)
  | TypeError
  | OverflowError
  | CollaboratorFailure (msg : string)
  | DanglingReference.

Inductive Result (A : Type) : Type :=
  | Ok (a : A)
  | Raise (e : Exception).
Arguments Ok {A} a.
Arguments Raise {A} e.

(** The calls [create_predictable_zipline] makes to code outside itself, in
    the order they are made. *)
Inductive Call : Set :=
  | Call_create_trading_environment
  | Call_create_updown_trade_source
  | Call_BuySellAlgorithm
  | Call_create_test_zipline
  | Call_simulate.

Definition ref := positive.

Record State : Type := mkState {
  store : gmap ref (gmap string Value);
  calls : list Call
}.

Definition M (A : Type) : Type := State -> Result A * State.

Definition ret {A} (a : A) : M A := fun st => (Ok a, st).

Definition raise {A} (e : Exception) : M A := fun st => (Raise e, st).

Definition bind {A B} (m : M A) (k : A -> M B) : M B :=
  fun st =>
    match m st with
    | (Ok a, st') => k a st'
    | (Raise e, st') => (Raise e, st')
    end.

Notation "'let*' x ':=' m 'in' k" := (bind m (fun x => k))
  (at level 10, x pattern, m at level 100, k at level 200).
Notation "m ';;' k" := (bind m (fun _ => k))
  (at level 100, k at level 200, right associativity).

(** The result of a collaborator that may raise. *)
Definition lift {A} (r : Result A) : M A := fun st => (r, st).

Definition log (c : Call) : M unit :=
  fun st => (Ok tt, {| store := store st; calls := calls st ++ [c] |}).

(** The dict object a reference points to. *)
Definition load (l : ref) : M (gmap string Value) :=
  fun st =>
    match store st !! l with
    | Some d => (Ok d, st)
    | None => (Raise DanglingReference, st)
    end.

Definition save (l : ref) (d : gmap string Value) : M unit :=
  fun st => (Ok tt, {| store := <[l := d]> (store st); calls := calls st |}).

(** [copy(d)]: a new dict object with the same items. *)
Definition copy (l : ref) : M ref :=
  let* d := load l in
  fun st =>
    let l' := fresh (dom (store st)) in
    (Ok l', {| store := <[l' := d]> (store st); calls := calls st |}).

(** [d[key]] *)
Definition getitem (l : ref) (key : string) : M Value :=
  let* d := load l in
  match d !! key with
  | Some v => ret v
  | None => raise (KeyError key)
  end.

(** [d.pop(key, default)] *)
Definition pop (l : ref) (key : string) (default : Value) : M Value :=
  let* d := load l in
  match d !! key with
  | Some v => save l (delete key d) ;; ret v
  | None => ret default
  end.

(** [key in d] *)
Definition contains (l : ref) (key : string) : M bool :=
  let* d := load l in
  ret (bool_decide (is_Some (d !! key))).

(** [d[key] = v] *)
Definition setitem (l : ref) (key : string) (v : Value) : M unit :=
  let* d := load l in
  save l (<[key := v]> d).

(** An operand of integer arithmetic; the values of the other classes of
    [Value] raise [TypeError] there. *)
Definition as_int (v : Value) : M Z :=
  match v with
  | VInt z => ret z
  | _ => raise TypeError
  end.

(** The conversion of an [int] operand of float arithmetic: it raises
    [OverflowError] for an int that rounds beyond the binary64 range. *)
Definition float_conversion (z : Z) : M unit :=
  if float_overflows z then raise OverflowError else ret tt.

(** [v - z] *)
Definition py_sub (v : Value) (z : Z) : M Value :=
  let* x := as_int v in ret (VInt (x - z)).

(** ** [create_predictable_zipline] *)

Section PredictableZipline.

Variable get_next_trading_dt :
  datetime -> timedelta_t -> TradingEnvironment -> datetime.
Variable repr : Value -> string.

(** [zipline.utils.factory.create_trading_environment()] *)
Variable create_trading_environment : Result TradingEnvironment.

(** The object [SimulatedTrading.create_test_zipline] returns; that
    constructor, applied to the items of [config] as keyword arguments;
    and [zipline.simulate(blocking)], which returns the object as the run
    left it. *)
Variable Zipline : Type.
Variable create_test_zipline : gmap string Value -> Result Zipline.
Variable zipline_simulate : Zipline -> bool -> Result Zipline.

(** The call of [create_updown_trade_source] with the values popped from
    the configuration, with the exceptions the function raises before it
    has any effect, in the order of the source: [amplitude/2.] on line 43
    raises [TypeError] on a value that is not a number and [OverflowError]
    on an int beyond the binary64 range, then [base_price - ...] on the
    same line does, then [trade_count + 2] on line 51 raises [TypeError]. *)
Definition call_create_updown_trade_source
    (sid0 trade_count : Value) (trading_environment : TradingEnvironment)
    (base_price amplitude : Value)
  : M (SpecificEquityTrades Value * TradingEnvironment) :=
  log Call_create_updown_trade_source ;;
  let* amplitude := as_int amplitude in
  float_conversion amplitude ;;
  let* base_price := as_int base_price in
  float_conversion base_price ;;
  let* trade_count := as_int trade_count in
  ret (create_updown_trade_source get_next_trading_dt repr
         sid0 trade_count trading_environment base_price amplitude).

Definition create_predictable_zipline
    (config : ref) (offset : Z) (simulate : bool) : M (Zipline * ref) :=
  let* config := copy config in
  let* sid0 := getitem config "sid" in
  let* amplitude := pop config "amplitude" (VInt 10) in
  let* base_price := pop config "base_price" (VInt 50) in
  let* trade_count := pop config "trade_count" (VInt 3) in
  let* trading_environment :=
    (log Call_create_trading_environment ;; lift create_trading_environment) in
  let* source_env :=
    call_create_updown_trade_source sid0 trade_count trading_environment
                                    base_price amplitude in
  let source := fst source_env in
  let trading_environment := snd source_env in
  let* has_algorithm := contains config "algorithm" in
  (if negb has_algorithm
   then log Call_BuySellAlgorithm ;;
        setitem config "algorithm" (VAlgorithm (BuySellAlgorithm sid0 100 offset))
   else ret tt) ;;
  let* order_count := py_sub trade_count 1 in
  setitem config "order_count" order_count ;;
  setitem config "trade_count" trade_count ;;
  setitem config "trade_source" (VSource source) ;;
  setitem config "environment" (VEnvironment trading_environment) ;;
  setitem config "simulation_style" (VStyle FIXED_SLIPPAGE) ;;
  let* kwargs := load config in
  let* zipline :=
    (log Call_create_test_zipline ;; lift (create_test_zipline kwargs)) in
  let* zipline :=
    (if simulate
     then log Call_simulate ;; lift (zipline_simulate zipline true)
     else ret zipline) in
  ret (zipline, config).

End PredictableZipline.

(** The dict [create_predictable_zipline] has built when it calls the
    engine, from the items [d] of the caller's configuration: the three
    popped keys are gone, the default algorithm is there unless one was
    supplied, and the five derived keys are set.  [run_inversion] and
    [run_returns] below relate the function to it. *)
Definition composed_config (d : gmap string Value) (sid0 : Value)
    (trade_count : Z) (source : SpecificEquityTrades Value)
    (trading_environment : TradingEnvironment) (offset : Z)
  : gmap string Value :=
  let d0 := delete "trade_count" (delete "base_price" (delete "amplitude" d)) in
  let d1 := if bool_decide (is_Some (d0 !! "algorithm")) then d0
            else <["algorithm" := VAlgorithm (BuySellAlgorithm sid0 100 offset)]> d0 in
  <["simulation_style" := VStyle FIXED_SLIPPAGE]>
    (<["environment" := VEnvironment trading_environment]>
       (<["trade_source" := VSource source]>
          (<["trade_count" := VInt trade_count]>
             (<["order_count" := VInt (trade_count - 1)]> d1)))).

(** The calls of a run that reaches its end. *)
Definition calls_of_run (has_algorithm simulate : bool) : list Call :=
  [Call_create_trading_environment; Call_create_updown_trade_source]
  ++ (if has_algorithm then [] else [Call_BuySellAlgorithm])
  ++ [Call_create_test_zipline]
  ++ (if simulate then [Call_simulate] else []).

(** A computation leaves the dict object at [l] as it is, whatever its
    result. *)
Definition preserves {A} (l : ref) (m : M A) : Prop :=
  forall st, store (snd (m st)) !! l = store st !! l.

(** ** Sample collaborators

    A calendar on which every day is a trading day, an engine that always
    succeeds, and stores holding one configuration; the examples below run
    the two functions on them. *)

Definition every_day (cur : datetime) (interval : timedelta_t)
    (_ : TradingEnvironment) : datetime := (cur + interval)%Z.

Definition no_repr (_ : Value) : string := "<object>".

Definition sample_environment : TradingEnvironment :=
  {| first_open := 0%Z; period_end := timedelta 365 |}.

(** The sample engine is represented by whether it has been run. *)
Definition sample_create (kwargs : gmap string Value) : Result bool := Ok false.

Definition sample_simulate (z : bool) (blocking : bool) : Result bool := Ok true.

Definition sample_state (d : gmap string Value) : State :=
  {| store := {[ 1%positive := d ]}; calls := [] |}.

(** Three configurations: the sid alone; the sid with the three optional
    trade source keys and a key passed through to the engine; no sid. *)
Definition config_sid_only : gmap string Value := {[ "sid" := VInt 1 ]}.

Definition config_full : gmap string Value :=
  <["sid" := VInt 7]>
    (<["amplitude" := VInt 4]>
       (<["base_price" := VInt 20]>
          (<["trade_count" := VInt 6]> {[ "capital_base" := VInt 100000 ]}))).

Definition config_no_sid : gmap string Value := {[ "amplitude" := VInt 4 ]}.

Definition sample_run (d : gmap string Value) (offset : Z) (simulate : bool)
  : Result (bool * ref) * State :=
  create_predictable_zipline every_day no_repr (Ok sample_environment)
    bool sample_create sample_simulate 1%positive offset simulate
    (sample_state d).

(** The keys [create_predictable_zipline] pops or assigns; every other key
    of the configuration is passed through to the engine. *)
Definition managed_keys : list string :=
  ["amplitude"; "base_price"; "trade_count"; "algorithm"; "order_count";
   "trade_source"; "environment"; "simulation_style"].

(** The values of [Value] on which Python arithmetic with a number raises
    [TypeError] whatever the operator: [None] and the strings. *)
Definition no_arithmetic (v : Value) : Prop :=
  v = VNone \/ exists s, v = VStr s.

(** The exception lines 43 and 51 raise on the three popped values, if
    any: the first operand, in the order [amplitude], [base_price],
    [trade_count], that is not an int or, for the first two, does not
    convert to a float. *)
Definition arithmetic_failure (amplitude base_price trade_count : Value)
  : option Exception :=
  match amplitude with
  | VInt a =>
      if float_overflows a then Some OverflowError
      else match base_price with
           | VInt b =>
               if float_overflows b then Some OverflowError
               else match trade_count with
                    | VInt _ => None
                    | _ => Some TypeError
                    end
           | _ => Some TypeError
           end
  | _ => Some TypeError
  end.

(** Collaborators that fail, and a configuration that supplies an
    algorithm and two of the derived keys. *)
Definition failing_create (kwargs : gmap string Value) : Result bool :=
  Raise (CollaboratorFailure "create_test_zipline").

Definition failing_simulate (z : bool) (blocking : bool) : Result bool :=
  Raise (CollaboratorFailure "simulate").

Definition config_overrides : gmap string Value :=
  <["sid" := VInt 3]>
    (<["algorithm" := VAlgorithm (UserAlgorithm "mine")]>
       (<["simulation_style" := VStr "partial_volume"]>
          {[ "order_count" := VInt 40 ]})).

(** The sample run with other collaborators: a failing environment
    factory, a failing constructor, a failing [simulate]. *)
Definition sample_run_no_environment (d : gmap string Value)
  : Result (bool * ref) * State :=
  create_predictable_zipline every_day no_repr
    (Raise (CollaboratorFailure "create_trading_environment"))
    bool sample_create sample_simulate 1%positive 0 true (sample_state d).

Definition sample_run_no_engine (d : gmap string Value)
  : Result (bool * ref) * State :=
  create_predictable_zipline every_day no_repr (Ok sample_environment)
    bool failing_create sample_simulate 1%positive 0 true (sample_state d).

Definition sample_run_no_simulate (d : gmap string Value)
  : Result (bool * ref) * State :=
  create_predictable_zipline every_day no_repr (Ok sample_environment)
    bool sample_create failing_simulate 1%positive 0 true (sample_state d).

(** A second call on the state the first one left. *)
Definition sample_run_again (d : gmap string Value) (offset : Z)
    (simulate : bool) : Result (bool * ref) * State :=
  create_predictable_zipline every_day no_repr (Ok sample_environment)
    bool sample_create sample_simulate 1%positive offset simulate
    (snd (sample_run d offset simulate)).

(** ** Binary64 floats of half-integers

    The definitions the exactness lemmas are stated with: the number of
    bits of a mantissa, the canonical float of a mantissa of at most 53
    bits, and the float of a number of halves below 2^53. *)

Definition digits (p : positive) : Z := Zpos (digits2_pos p).

(** The canonical binary64 float of [h * 2^e], negated when [s], for [h]
    of at most 53 bits. *)
Definition canon (s : bool) (h : positive) (e : Z) : float :=
  S754_finite s (Z.to_pos (Zpos h * 2 ^ (53 - digits h)))
              (e - (53 - digits h)).

(** The binary64 float of [h / 2]. *)
Definition float_of_halves (h : Z) : float :=
  match h with
  | Z0 => S754_zero false
  | Zpos p => canon false p (-1)
  | Zneg p => canon true p (-1)
  end.

(** The numbers of halves binary64 holds exactly. *)
Definition small (h : Z) : Prop := (Z.abs h < 2 ^ 53)%Z.

Definition sign_of (h : Z) : bool := (h <? 0)%Z.

(** ** Binary64 arithmetic without rounding

    On floats of half-integers below 2^53 the conversion, the division by
    two, the addition and the subtraction are exact. *)

Lemma digits2_pos_size p : digits2_pos p = Pos.size p.
Proof. induction p as [p IH|p IH|]; cbn; congruence. Qed.

Lemma digits_log2 p : digits p = (Z.log2 (Zpos p) + 1)%Z.
Proof.
  unfold digits. rewrite digits2_pos_size.
  destruct p as [p|p|]; cbn [Pos.size Z.log2]; lia.
Qed.

Lemma digits_pos p : (1 <= digits p)%Z.
Proof. unfold digits. lia. Qed.

Lemma digits_mul_pow2 p q k :
  (0 <= k)%Z -> Zpos q = (Zpos p * 2 ^ k)%Z -> digits q = (digits p + k)%Z.
Proof.
  intros Hk Hq. rewrite !digits_log2, Hq.
  rewrite Z.log2_mul_pow2 by lia. lia.
Qed.

Lemma digits_le p n : (0 <= n)%Z -> (Zpos p < 2 ^ n)%Z -> (digits p <= n)%Z.
Proof.
  intros Hn Hlt. rewrite digits_log2.
  apply Z.log2_lt_pow2 in Hlt; lia.
Qed.

Lemma pos_iter_xO m d : Zpos (Pos.iter xO m d) = (Zpos m * 2 ^ Zpos d)%Z.
Proof.
  change (Pos.iter xO m d) with (shift_pos d m).
  rewrite shift_pos_correct. change (Z.pow_pos 2 d) with (2 ^ Zpos d)%Z. lia.
Qed.

Lemma shl_align_fst m e e' :
  (e' <= e)%Z -> Zpos (fst (shl_align m e e')) = (Zpos m * 2 ^ (e - e'))%Z.
Proof.
  intros Hle. unfold shl_align.
  destruct (e' - e)%Z as [|d|d] eqn:E; cbn [fst].
  - replace (e - e')%Z with 0%Z by lia. lia.
  - lia.
  - rewrite pos_iter_xO. f_equal. f_equal. lia.
Qed.

Lemma shl_align_snd m e e' :
  (e' <= e)%Z -> snd (shl_align m e e') = e'.
Proof.
  intros Hle. unfold shl_align.
  destruct (e' - e)%Z as [|d|d] eqn:E; cbn [snd]; lia.
Qed.

Lemma iter_pos_iter {A} (f : A -> A) n x :
  SpecFloat.iter_pos f n x = Pos.iter f x n.
Proof.
  revert x. induction n as [n IH|n IH|]; intros x; cbn.
  - rewrite !IH. rewrite <- !Pos.iter_swap. reflexivity.
  - rewrite !IH. reflexivity.
  - reflexivity.
Qed.

Lemma shr_exact n q m :
  Zpos m = (Zpos q * 2 ^ Zpos n)%Z ->
  SpecFloat.iter_pos shr_1 n (Build_shr_record (Zpos m) false false)
  = Build_shr_record (Zpos q) false false.
Proof.
  rewrite iter_pos_iter. revert q m.
  induction n as [|n IH] using Pos.peano_ind; intros q m Hm.
  - cbn. destruct m as [m|m|]; try lia.
    f_equal. lia.
  - rewrite Pos.iter_succ.
    rewrite (IH (q~0)%positive m).
    + reflexivity.
    + rewrite Hm. rewrite Pos2Z.inj_succ, Z.pow_succ_r by lia. lia.
Qed.

(** A mantissa of 53 bits followed by [n] zero bits is rounded to itself. *)
Lemma binary_round_aux_exact sx m q n e :
  (0 <= n)%Z ->
  Zpos m = (Zpos q * 2 ^ n)%Z ->
  digits q = 53%Z ->
  (-1074 <= e)%Z -> (e + n <= 971)%Z ->
  binary_round_aux 53 1024 sx (Zpos m) e loc_Exact = S754_finite sx q (e + n).
Proof.
  intros Hn Hm Hq Hlo Hhi.
  assert (Hdm : digits m = (53 + n)%Z).
  { rewrite (digits_mul_pow2 q m n Hn Hm). lia. }
  unfold binary_round_aux.
  assert (H1 : shr_fexp 53 1024 (Zpos m) e loc_Exact
               = (Build_shr_record (Zpos q) false false, (e + n)%Z)).
  { unfold shr_fexp, shr_record_of_loc, Zdigits2.
    change (Zpos (digits2_pos m)) with (digits m). rewrite Hdm.
    replace (fexp 53 1024 (53 + n + e) - e)%Z with n
      by (unfold fexp, emin; lia).
    unfold shr. destruct n as [|n|n]; try lia.
    - f_equal. f_equal. lia. lia.
    - rewrite (shr_exact n q m Hm). reflexivity. }
  rewrite H1. cbn [shr_m loc_of_shr_record round_nearest_even].
  assert (H2 : shr_fexp 53 1024 (Zpos q) (e + n) loc_Exact
               = (Build_shr_record (Zpos q) false false, (e + n)%Z)).
  { unfold shr_fexp, shr_record_of_loc, Zdigits2.
    change (Zpos (digits2_pos q)) with (digits q). rewrite Hq.
    replace (fexp 53 1024 (53 + (e + n)) - (e + n))%Z with 0%Z
      by (unfold fexp, emin; lia).
    reflexivity. }
  rewrite H2. cbn [shr_m].
  replace (e + n <=? 1024 - 53)%Z with true by (symmetry; apply Z.leb_le; lia).
  reflexivity.
Qed.

Lemma binary_round_exact sx m h k e :
  (0 <= k)%Z ->
  Zpos m = (Zpos h * 2 ^ k)%Z ->
  (digits h <= 53)%Z ->
  (-900 <= e)%Z -> (e + k <= 900)%Z ->
  binary_round 53 1024 sx m e = canon sx h (e + k).
Proof.
  intros Hk Hm Hh Hlo Hhi.
  pose proof (digits_pos h) as Hh1.
  assert (Hdm : digits m = (digits h + k)%Z)
    by exact (digits_mul_pow2 h m k Hk Hm).
  set (c := Z.to_pos (Zpos h * 2 ^ (53 - digits h))).
  assert (Hc : Zpos c = (Zpos h * 2 ^ (53 - digits h))%Z).
  { unfold c. rewrite Z2Pos.id; [reflexivity|].
    apply Z.mul_pos_pos; [lia|]. apply Z.pow_pos_nonneg; lia. }
  assert (Hdc : digits c = 53%Z).
  { rewrite (digits_mul_pow2 h c (53 - digits h)); [lia | lia | exact Hc]. }
  unfold binary_round, canon. fold c.
  change (Zpos (digits2_pos m)) with (digits m). rewrite Hdm.
  replace (fexp 53 1024 (digits h + k + e)) with (digits h + k + e - 53)%Z
    by (unfold fexp, emin; lia).
  destruct (Z_lt_le_dec (digits h + k) 53) as [Hlt|Hge].
  - (* the mantissa is shifted left *)
    pose proof (shl_align_fst m e (digits h + k + e - 53) ltac:(lia)) as Hf.
    pose proof (shl_align_snd m e (digits h + k + e - 53) ltac:(lia)) as Hs.
    destruct (shl_align m e (digits h + k + e - 53)) as [mz ez].
    cbn [fst snd] in Hf, Hs. subst ez.
    assert (mz = c) as ->.
    { apply Pos2Z.inj. rewrite Hf, Hc, Hm, <- Z.mul_assoc, <- Z.pow_add_r by lia.
      f_equal. f_equal. lia. }
    rewrite (binary_round_aux_exact sx c c 0 _); [| lia | lia | exact Hdc | lia | lia].
    f_equal. lia.
  - (* the mantissa is shifted right *)
    assert (Hal : shl_align m e (digits h + k + e - 53) = (m, e)).
    { unfold shl_align.
      destruct (digits h + k + e - 53 - e)%Z eqn:E; try reflexivity. lia. }
    rewrite Hal.
    rewrite (binary_round_aux_exact sx m c (digits h + k - 53) _);
      [| lia | | exact Hdc | lia | lia].
    + f_equal. lia.
    + rewrite Hm, Hc, <- Z.mul_assoc, <- Z.pow_add_r by lia.
      f_equal. f_equal. lia.
Qed.

Lemma small_digits p : small (Zpos p) -> (digits p <= 53)%Z.
Proof. unfold small. intros H. apply digits_le; lia. Qed.

Lemma normalize_exact m k e h :
  (0 <= k)%Z -> m = (h * 2 ^ k)%Z -> small h ->
  (-900 <= e)%Z -> (e + k = -1)%Z ->
  binary_normalize 53 1024 m e false = float_of_halves h.
Proof.
  intros Hk Hm Hh Hlo He.
  assert (H2 : (0 < 2 ^ k)%Z) by (apply Z.pow_pos_nonneg; lia).
  destruct h as [|p|p].
  - subst m. reflexivity.
  - assert (Hp : m = Zpos (Z.to_pos m)) by (rewrite Z2Pos.id; lia).
    rewrite Hp. cbn [binary_normalize float_of_halves].
    rewrite (binary_round_exact false (Z.to_pos m) p k e);
      [rewrite He; reflexivity | lia | lia | | lia | lia].
    apply small_digits, Hh.
  - assert (Hp : m = Zneg (Z.to_pos (- m))) by (rewrite <- Pos2Z.opp_pos, Z2Pos.id; lia).
    rewrite Hp. cbn [binary_normalize float_of_halves].
    rewrite (binary_round_exact true (Z.to_pos (- m)) p k e);
      [rewrite He; reflexivity | lia | | | lia | lia].
    + rewrite Z2Pos.id by lia. lia.
    + apply small_digits. unfold small in *. lia.
Qed.

Lemma canon_double s p e :
  (digits p <= 52)%Z -> canon s (p~0) e = canon s p (e + 1).
Proof.
  intros Hp. unfold canon.
  assert (Hd : digits (p~0) = (digits p + 1)%Z).
  { unfold digits. cbn [digits2_pos]. lia. }
  rewrite Hd. f_equal; [|lia]. f_equal.
  replace (53 - digits p)%Z with (Z.succ (53 - (digits p + 1))) by lia.
  rewrite Z.pow_succ_r by lia. lia.
Qed.

Lemma float_of_int_exact z :
  (Z.abs z < 2 ^ 52)%Z -> float_of_int z = float_of_halves (2 * z).
Proof.
  intros Hz. unfold float_of_int.
  destruct z as [|p|p].
  - reflexivity.
  - assert (Hd : (digits p <= 52)%Z) by (apply digits_le; lia).
    change (float_of_halves (2 * Zpos p)) with (canon false (p~0) (-1)).
    rewrite canon_double by exact Hd.
    apply (binary_round_exact false p p 0 0); lia.
  - assert (Hd : (digits p <= 52)%Z) by (apply digits_le; lia).
    change (float_of_halves (2 * Zneg p)) with (canon true (p~0) (-1)).
    rewrite canon_double by exact Hd.
    apply (binary_round_exact true p p 0 0); lia.
Qed.

Lemma float_of_halves_shape h :
  h <> 0%Z -> small h ->
  exists m e,
    float_of_halves h = S754_finite (sign_of h) m e
    /\ (-54 < e <= -1)%Z
    /\ (cond_Zopp (sign_of h) (Zpos m) = h * 2 ^ (-1 - e))%Z.
Proof.
  intros Hnz Hs.
  assert (Hcanon : forall p, small (Zpos p) ->
            (-54 < -1 - (53 - digits p) <= -1)%Z
            /\ Zpos (Z.to_pos (Zpos p * 2 ^ (53 - digits p)))
               = (Zpos p * 2 ^ (-1 - (-1 - (53 - digits p))))%Z).
  { intros p Hp. pose proof (small_digits p Hp) as Hd.
    pose proof (digits_pos p) as Hd1. split; [lia|].
    rewrite Z2Pos.id.
    - f_equal. f_equal. lia.
    - apply Z.mul_pos_pos; [lia|]. apply Z.pow_pos_nonneg; lia. }
  destruct h as [|p|p]; [congruence| |].
  - destruct (Hcanon p Hs) as [He Hm].
    eexists _, _. split; [reflexivity|]. split; [exact He|]. exact Hm.
  - assert (Hs' : small (Zpos p)) by (unfold small in *; lia).
    destruct (Hcanon p Hs') as [He Hm].
    eexists _, _. split; [reflexivity|]. split; [exact He|].
    cbn [sign_of Z.ltb Z.compare cond_Zopp]. rewrite Hm. lia.
Qed.

Lemma aligned_value s m e e' h :
  (cond_Zopp s (Zpos m) = h * 2 ^ (-1 - e))%Z ->
  (e' <= e <= -1)%Z ->
  (cond_Zopp s (Zpos (fst (shl_align m e e'))) = h * 2 ^ (-1 - e'))%Z.
Proof.
  intros Hv He. rewrite shl_align_fst by lia.
  replace (-1 - e')%Z with ((-1 - e) + (e - e'))%Z by lia.
  rewrite Z.pow_add_r by lia.
  destruct s; cbn [cond_Zopp] in *; lia.
Qed.

Lemma float_add_exact x y :
  small x -> small y -> small (x + y) ->
  float_add (float_of_halves x) (float_of_halves y) = float_of_halves (x + y).
Proof.
  intros Hx Hy Hxy.
  destruct (Z.eq_dec x 0%Z) as [->|Hx0].
  { cbn [float_of_halves Z.add]. destruct y; reflexivity. }
  destruct (Z.eq_dec y 0%Z) as [->|Hy0].
  { rewrite Z.add_0_r. destruct x; reflexivity. }
  destruct (float_of_halves_shape x Hx0 Hx) as (mx & ex & -> & Hex & Hvx).
  destruct (float_of_halves_shape y Hy0 Hy) as (my & ey & -> & Hey & Hvy).
  unfold float_add, SFadd. cbn zeta.
  rewrite (aligned_value _ mx ex (Z.min ex ey) x Hvx) by lia.
  rewrite (aligned_value _ my ey (Z.min ex ey) y Hvy) by lia.
  apply (normalize_exact _ (-1 - Z.min ex ey)); [lia | lia | exact Hxy | lia | lia].
Qed.

Lemma float_sub_exact x y :
  small x -> small y -> small (x - y) ->
  float_sub (float_of_halves x) (float_of_halves y) = float_of_halves (x - y).
Proof.
  intros Hx Hy Hxy.
  destruct (Z.eq_dec y 0%Z) as [->|Hy0].
  { rewrite Z.sub_0_r. destruct x; reflexivity. }
  destruct (Z.eq_dec x 0%Z) as [->|Hx0].
  { cbn [Z.sub Z.add]. destruct y; try congruence; reflexivity. }
  destruct (float_of_halves_shape x Hx0 Hx) as (mx & ex & -> & Hex & Hvx).
  destruct (float_of_halves_shape y Hy0 Hy) as (my & ey & -> & Hey & Hvy).
  unfold float_sub, SFsub. cbn zeta.
  rewrite (aligned_value _ mx ex (Z.min ex ey) x Hvx) by lia.
  rewrite (aligned_value _ my ey (Z.min ex ey) y Hvy) by lia.
  apply (normalize_exact _ (-1 - Z.min ex ey)); [lia | lia | exact Hxy | lia | lia].
Qed.

Lemma div_eucl_exact a b :
  (b <> 0)%Z -> Z.div_eucl (a * b) b = (a, 0%Z).
Proof.
  intros Hb.
  assert (H : Z.div_eucl (a * b) b = ((a * b) / b, (a * b) mod b)%Z).
  { unfold Z.div, Z.modulo. destruct (Z.div_eucl (a * b) b). reflexivity. }
  rewrite H, Z.div_mul, Z.mod_mul by exact Hb. reflexivity.
Qed.

Lemma float_div_two s M E :
  digits M = 53%Z -> (-1000 <= E <= 900)%Z ->
  float_div (S754_finite s M E) float_two = S754_finite s M (E - 1).
Proof.
  intros HM HE.
  assert (Hcore : SFdiv_core_binary 53 1024 (Zpos M) E 4503599627370496 (-51)
                  = (Zpos M~0, (E - 2)%Z, loc_Exact)).
  { unfold SFdiv_core_binary, Zdigits2.
    change (Zpos (digits2_pos M)) with (digits M). rewrite HM.
    change (Zpos (digits2_pos 4503599627370496)) with 53%Z.
    replace (Z.min (fexp 53 1024 (53 + E - (53 + -51))) (E - -51))
      with (E - 2)%Z by (unfold fexp, emin; lia).
    replace (E - -51 - (E - 2))%Z with 53%Z by lia.
    rewrite Z.shiftl_mul_pow2 by lia.
    replace (Zpos M * 2 ^ 53)%Z with (Zpos M~0 * 4503599627370496)%Z by lia.
    rewrite div_eucl_exact by lia. reflexivity. }
  unfold float_div, SFdiv, float_two. rewrite Hcore.
  rewrite xorb_false_r.
  rewrite (binary_round_aux_exact s (M~0) M 1); [| lia | lia | exact HM | lia | lia].
  f_equal. lia.
Qed.

Lemma canon_digits s p e :
  (digits p <= 53)%Z ->
  exists M, canon s p e = S754_finite s M (e - (53 - digits p))
            /\ digits M = 53%Z.
Proof.
  intros Hp. pose proof (digits_pos p) as Hp1.
  eexists. split; [reflexivity|].
  rewrite (digits_mul_pow2 p _ (53 - digits p)); [lia | lia |].
  rewrite Z2Pos.id; [reflexivity|].
  apply Z.mul_pos_pos; [lia|]. apply Z.pow_pos_nonneg; lia.
Qed.

Lemma canon_div_two s p e :
  (digits p <= 53)%Z -> (-900 <= e <= 900)%Z ->
  float_div (canon s p e) float_two = canon s p (e - 1).
Proof.
  intros Hp He. pose proof (digits_pos p) as Hp1.
  destruct (canon_digits s p e Hp) as (M & HM & HdM).
  rewrite HM, float_div_two by (try exact HdM; lia).
  unfold canon in *. injection HM as <-. f_equal. lia.
Qed.

Lemma float_div_two_exact a :
  (Z.abs a < 2 ^ 52)%Z ->
  float_div (float_of_halves (2 * a)) float_two = float_of_halves a.
Proof.
  intros Ha. destruct a as [|p|p].
  - reflexivity.
  - assert (Hd : (digits p <= 52)%Z) by (apply digits_le; lia).
    change (float_of_halves (2 * Zpos p)) with (canon false (p~0) (-1)).
    rewrite canon_double by exact Hd.
    rewrite canon_div_two by lia. reflexivity.
  - assert (Hd : (digits p <= 52)%Z) by (apply digits_le; lia).
    change (float_of_halves (2 * Zneg p)) with (canon true (p~0) (-1)).
    rewrite canon_double by exact Hd.
    rewrite canon_div_two by lia. reflexivity.
Qed.

Lemma float_of_halves_value h :
  small h -> has_value (float_of_halves h) (h # 2).
Proof.
  intros Hs. destruct (Z.eq_dec h 0%Z) as [->|Hnz].
  - eexists. split; [reflexivity|]. reflexivity.
  - destruct (float_of_halves_shape h Hnz Hs) as (m & e & -> & He & Hv).
    eexists. split; [reflexivity|].
    replace (0 <=? e)%Z with false by (symmetry; apply Z.leb_gt; lia).
    unfold Qeq. cbn [Qnum Qden]. rewrite Hv.
    rewrite Z2Pos.id by (apply Z.pow_pos_nonneg; lia).
    replace (- e)%Z with (Z.succ (-1 - e)) by lia.
    rewrite Z.pow_succ_r by lia. lia.
Qed.

(** ** The loop of [create_updown_trade_source] *)

Lemma mod2_even n : (n mod 2 = if Nat.even n then 0 else 1)%nat.
Proof.
  destruct (Nat.even n) eqn:E.
  - apply Nat.even_spec in E. destruct E as [k ->].
    replace (2 * k)%nat with (0 + k * 2)%nat by lia.
    apply Nat.Div0.mod_add.
  - assert (O : Nat.odd n = true) by (rewrite <- Nat.negb_even, E; reflexivity).
    apply Nat.odd_spec in O. destruct O as [k ->].
    replace (2 * k + 1)%nat with (1 + k * 2)%nat by lia.
    apply Nat.Div0.mod_add.
Qed.

Lemma succ_mod2 n : (S (n mod 2) mod 2 = S n mod 2)%nat.
Proof.
  replace (S (n mod 2)) with (n mod 2 + 1)%nat by lia.
  replace (S n) with (n + 1)%nat by lia.
  apply Nat.Div0.add_mod_idemp_l.
Qed.

Section LoopFacts.

Variable get_next_trading_dt :
  datetime -> timedelta_t -> TradingEnvironment -> datetime.
Variables (sid0 : Value) (trading_environment : TradingEnvironment)
          (amplitude : Z) (one_day : timedelta_t).

Local Abbreviation body :=
  (loop_body get_next_trading_dt sid0 trading_environment amplitude one_day).
Local Abbreviation emit :=
  (emitted get_next_trading_dt sid0 trading_environment one_day).
Local Abbreviation loop :=
  (for_xrange get_next_trading_dt sid0 trading_environment amplitude one_day).

Lemma body_events st : l_events (body st) = l_events st ++ [emit st].
Proof. unfold loop_body. destruct (cycle_next (l_change st)). reflexivity. Qed.

Lemma body_cur st : l_cur (body st) = dt (emit st).
Proof. unfold loop_body. destruct (cycle_next (l_change st)). reflexivity. Qed.

Lemma body_price st :
  l_price (body st)
  = float_add (l_price st)
              (float_of_int (fst (cycle_next (l_change st)) * amplitude)).
Proof. unfold loop_body. destruct (cycle_next (l_change st)). reflexivity. Qed.

Lemma body_change st : l_change (body st) = snd (cycle_next (l_change st)).
Proof. unfold loop_body. destruct (cycle_next (l_change st)). reflexivity. Qed.

(** The loop unrolled at its last iteration. *)
Lemma loop_snoc n st : loop (S n) st = body (loop n st).
Proof.
  revert st. induction n as [|n IH]; intros st; [reflexivity|].
  change (loop (S (S n)) st) with (loop (S n) (body st)).
  rewrite IH. reflexivity.
Qed.

Lemma loop_events_snoc n st :
  l_events (loop (S n) st) = l_events (loop n st) ++ [emit (loop n st)].
Proof. rewrite loop_snoc. apply body_events. Qed.

Lemma loop_events_length n st :
  length (l_events (loop n st)) = (length (l_events st) + n)%nat.
Proof.
  induction n as [|n IH]; [simpl; lia|].
  rewrite loop_events_snoc, length_app, IH. simpl. lia.
Qed.

(** Event number [i] of a run from an empty list is the one emit from
    the state reached after [i] iterations. *)
Lemma loop_events_lookup n st i :
  l_events st = [] -> (i < n)%nat ->
  l_events (loop n st) !! i = Some (emit (loop i st)).
Proof.
  intros Hnil. induction n as [|n IH]; intros Hi; [lia|].
  rewrite loop_events_snoc.
  destruct (decide (i = n)) as [->|Hne].
  - rewrite lookup_app_r; rewrite loop_events_length, Hnil; simpl; [|lia].
    replace (n - n)%nat with 0%nat by lia. reflexivity.
  - rewrite lookup_app_l; [apply IH; lia|].
    rewrite loop_events_length, Hnil. simpl. lia.
Qed.

Lemma loop_events_lookup_inv n st i e :
  l_events st = [] -> l_events (loop n st) !! i = Some e ->
  (i < n)%nat /\ e = emit (loop i st).
Proof.
  intros Hnil He.
  assert (Hi : (i < n)%nat).
  { apply lookup_lt_Some in He. rewrite loop_events_length, Hnil in He.
    simpl in He. lia. }
  split; [exact Hi|].
  rewrite (loop_events_lookup n st i Hnil Hi) in He. congruence.
Qed.

(** Every event carries the constants of the record literal. *)
Lemma loop_events_constants n st :
  Forall (fun e => type e = TRADE /\ sid e = sid0 /\ volume e = 1000%Z)
         (l_events st) ->
  Forall (fun e => type e = TRADE /\ sid e = sid0 /\ volume e = 1000%Z)
         (l_events (loop n st)).
Proof.
  intros H. induction n as [|n IH]; [exact H|].
  rewrite loop_events_snoc. apply Forall_app. split; [exact IH|].
  constructor; [|constructor]. repeat split.
Qed.

(** The iterator over [[1; -1]] after [n] calls of [next]. *)
Lemma loop_change n st :
  l_change st = cycle [1; -1]%Z ->
  l_change (loop n st) = {| saved := [1; -1]%Z; pos := n mod 2 |}.
Proof.
  intros H. induction n as [|n IH]; [exact H|].
  rewrite loop_snoc, body_change, IH. unfold cycle_next.
  cbn [saved pos length snd]. f_equal. apply succ_mod2.
Qed.

Lemma cycle_next_sign n :
  fst (cycle_next {| saved := [1; -1]%Z; pos := n mod 2 |})
  = if Nat.even n then 1%Z else (-1)%Z.
Proof.
  unfold cycle_next. cbn [fst saved pos]. rewrite mod2_even.
  destruct (Nat.even n); reflexivity.
Qed.

(** The price moves by [amplitude], up after an even number of
    iterations and down after an odd number. *)
Lemma loop_price_step n st :
  l_change st = cycle [1; -1]%Z ->
  l_price (loop (S n) st)
  = float_add (l_price (loop n st))
              (float_of_int ((if Nat.even n then 1 else -1) * amplitude)).
Proof.
  intros H. rewrite loop_snoc, body_price, (loop_change n st H), cycle_next_sign.
  reflexivity.
Qed.

Lemma loop_cur_step n st :
  l_cur (loop (S n) st)
  = get_next_trading_dt (l_cur (loop n st)) one_day trading_environment.
Proof. rewrite loop_snoc, body_cur. reflexivity. Qed.

End LoopFacts.

(** ** The event sequence of [create_updown_trade_source] *)

Section UpDownTheorems.

Variable get_next_trading_dt :
  datetime -> timedelta_t -> TradingEnvironment -> datetime.
Variable repr : Value -> string.

Local Abbreviation generate :=
  (create_updown_trade_source get_next_trading_dt repr).

Section Run.
Variables (sid0 : Value) (trade_count : Z)
          (trading_environment : TradingEnvironment)
          (base_price amplitude : Z).

Local Abbreviation state_after :=
  (state_after get_next_trading_dt sid0 trading_environment
               base_price amplitude).

Lemma generate_events :
  event_list (fst (generate sid0 trade_count trading_environment
                            base_price amplitude))
  = l_events (state_after (xrange_len (trade_count + 2))).
Proof. reflexivity. Qed.

Lemma generate_period_end :
  period_end (snd (generate sid0 trade_count trading_environment
                            base_price amplitude))
  = l_cur (state_after (xrange_len (trade_count + 2))).
Proof. reflexivity. Qed.

Lemma generate_lookup i e :
  event_list (fst (generate sid0 trade_count trading_environment
                            base_price amplitude)) !! i = Some e ->
  (i < xrange_len (trade_count + 2))%nat
  /\ e = emitted get_next_trading_dt sid0 trading_environment
                 (timedelta 1) (state_after i).
Proof.
  rewrite generate_events. unfold state_after.
  apply loop_events_lookup_inv. reflexivity.
Qed.

Lemma generate_price_lookup i p :
  prices (fst (generate sid0 trade_count trading_environment
                        base_price amplitude)) !! i = Some p ->
  p = l_price (state_after i).
Proof.
  unfold prices. rewrite list_lookup_fmap. intros H.
  apply fmap_Some in H. destruct H as (e & He & ->).
  apply generate_lookup in He. destruct He as [_ ->]. reflexivity.
Qed.

Lemma generate_timestamp_lookup i t :
  timestamps (fst (generate sid0 trade_count trading_environment
                            base_price amplitude)) !! i = Some t ->
  (i < xrange_len (trade_count + 2))%nat /\ t = l_cur (state_after (S i)).
Proof.
  unfold timestamps. rewrite list_lookup_fmap. intros H.
  apply fmap_Some in H. destruct H as (e & He & ->).
  apply generate_lookup in He. destruct He as [Hi ->].
  split; [exact Hi|]. unfold state_after. rewrite loop_cur_step. reflexivity.
Qed.

(** Under an advancement function that moves forward, the cursor does. *)
Lemma state_after_cur_lt i j :
  (forall cur, (cur < get_next_trading_dt cur (timedelta 1)
                                         trading_environment)%Z) ->
  (i < j)%nat -> (l_cur (state_after i) < l_cur (state_after j))%Z.
Proof.
  intros Hlater Hij. induction Hij as [|j Hij IH].
  - unfold state_after. rewrite loop_cur_step. apply Hlater.
  - etransitivity; [exact IH|].
    unfold state_after. rewrite loop_cur_step. apply Hlater.
Qed.
End Run.

Lemma has_value_eq f q q' : has_value f q -> (q == q')%Q -> has_value f q'.
Proof.
  intros (q0 & Hf & Hq) Heq. exists q0. split; [exact Hf|].
  rewrite Hq. exact Heq.
Qed.

(** Up to 2^51 in magnitude the prices are computed without rounding: the
    price after [i] iterations is the float of [2 * base_price - amplitude]
    halves for an even [i], of [2 * base_price + amplitude] halves for an
    odd one. *)
Lemma state_after_price_exact sid0 trading_environment base_price amplitude i :
  (Z.abs base_price <= 2 ^ 51)%Z -> (Z.abs amplitude <= 2 ^ 51)%Z ->
  l_price (state_after get_next_trading_dt sid0 trading_environment
                       base_price amplitude i)
  = float_of_halves (if Nat.even i then 2 * base_price - amplitude
                     else 2 * base_price + amplitude).
Proof.
  intros Hb Ha.
  change (2 ^ 51)%Z with 2251799813685248%Z in Hb, Ha.
  assert (Hsmall : forall h, (Z.abs h <= 6755399441055744)%Z -> small h).
  { intros h Hh. unfold small.
    change (2 ^ 53)%Z with 9007199254740992%Z. lia. }
  assert (Hconv : forall z, (Z.abs z <= 2251799813685248)%Z ->
                            float_of_int z = float_of_halves (2 * z)).
  { intros z Hz. apply float_of_int_exact.
    change (2 ^ 52)%Z with 4503599627370496%Z. lia. }
  induction i as [|i IH].
  - cbn [Nat.even state_after for_xrange loop_entry l_price].
    rewrite (Hconv base_price Hb), (Hconv amplitude Ha).
    rewrite float_div_two_exact
      by (change (2 ^ 52)%Z with 4503599627370496%Z; lia).
    apply float_sub_exact; apply Hsmall; lia.
  - unfold state_after in *. rewrite loop_price_step by reflexivity.
    rewrite IH, Nat.even_succ, <- Nat.negb_even.
    destruct (Nat.even i); cbn [negb].
    + rewrite Z.mul_1_l, (Hconv amplitude Ha).
      rewrite float_add_exact by (apply Hsmall; lia).
      f_equal. lia.
    + rewrite (Hconv (-1 * amplitude)%Z) by lia.
      rewrite float_add_exact by (apply Hsmall; lia).
      f_equal. lia.
Qed.

Lemma state_after_price_value sid0 trading_environment base_price amplitude i :
  (Z.abs base_price <= 2 ^ 51)%Z -> (Z.abs amplitude <= 2 ^ 51)%Z ->
  has_value
    (l_price (state_after get_next_trading_dt sid0 trading_environment
                          base_price amplitude i))
    (if Nat.even i then inject_Z base_price - inject_Z amplitude / 2
     else inject_Z base_price + inject_Z amplitude / 2)%Q.
Proof.
  intros Hb Ha. rewrite state_after_price_exact by assumption.
  change (2 ^ 51)%Z with 2251799813685248%Z in Hb, Ha.
  eapply has_value_eq.
  - apply float_of_halves_value. unfold small.
    change (2 ^ 53)%Z with 9007199254740992%Z. destruct (Nat.even i); lia.
  - destruct (Nat.even i); unfold Qeq; cbn; lia.
Qed.

(** C1, as amended.  For a base price and an amplitude of at most 2^51 in
    magnitude, where binary64 holds every price exactly: the first price
    is [base_price - amplitude/2]; the price after an event of even index
    is that event's price plus [amplitude], after an event of odd index
    minus [amplitude]; and the call with sid 1, trade count 3, base price
    50 and amplitude 10 yields the five prices 45, 55, 45, 55, 45. *)
Theorem updown_prices_alternate sid0 trade_count trading_environment
    base_price amplitude :
  (Z.abs base_price <= 2 ^ 51)%Z -> (Z.abs amplitude <= 2 ^ 51)%Z ->
  let ps := prices (fst (create_updown_trade_source get_next_trading_dt repr
                           sid0 trade_count trading_environment
                           base_price amplitude)) in
  (forall p0, ps !! 0%nat = Some p0 ->
              has_value p0 (inject_Z base_price - inject_Z amplitude / 2))
  /\ (forall i p p', ps !! i = Some p -> ps !! S i = Some p' ->
        exists q,
          has_value p q
          /\ has_value p' (if Nat.even i then q + inject_Z amplitude
                           else q - inject_Z amplitude))
  /\ Forall2 has_value
       (prices (fst (create_updown_trade_source get_next_trading_dt repr
                       (VInt 1) 3 trading_environment 50 10)))
       [45; 55; 45; 55; 45]%Q.
Proof.
  intros Hb Ha. cbn zeta. split; [|split].
  - intros p0 H0. apply generate_price_lookup in H0. subst p0.
    apply (state_after_price_value _ _ _ _ 0%nat Hb Ha).
  - intros i p p' Hp Hp'.
    apply generate_price_lookup in Hp, Hp'. subst p p'.
    pose proof (state_after_price_value sid0 trading_environment
                  base_price amplitude i Hb Ha) as Hi.
    pose proof (state_after_price_value sid0 trading_environment
                  base_price amplitude (S i) Hb Ha) as HSi.
    rewrite Nat.even_succ, <- Nat.negb_even in HSi.
    eexists. split; [exact Hi|].
    eapply has_value_eq; [exact HSi|].
    destruct (Nat.even i); cbn [negb]; field.
  - assert (Hps : prices (fst (create_updown_trade_source
                                 get_next_trading_dt repr
                                 (VInt 1) 3 trading_environment 50 10))
                  = [S754_finite false 6333186975989760 (-47);
                     S754_finite false 7740561859543040 (-47);
                     S754_finite false 6333186975989760 (-47);
                     S754_finite false 7740561859543040 (-47);
                     S754_finite false 6333186975989760 (-47)])
      by (vm_compute; reflexivity).
    rewrite Hps.
    repeat (constructor; [eexists; split; [reflexivity|vm_compute; reflexivity]|]).
    constructor.
Qed.

(** C3, as amended.  The source holds [max(trade_count + 2, 0)] events:
    [trade_count + 2] of them from [-2] on and none below; each has the
    type [TRADE], the given sid and the volume 1000. *)
Theorem updown_event_count sid0 trade_count trading_environment
    base_price amplitude :
  let es := event_list (fst (create_updown_trade_source
                               get_next_trading_dt repr
                               sid0 trade_count trading_environment
                               base_price amplitude)) in
  Z.of_nat (length es) = Z.max 0 (trade_count + 2)
  /\ Forall (fun e => type e = TRADE /\ sid e = sid0 /\ volume e = 1000%Z) es.
Proof.
  cbn zeta. rewrite generate_events. unfold state_after. split.
  - rewrite loop_events_length. unfold xrange_len. cbn [loop_entry l_events length].
    lia.
  - apply loop_events_constants. constructor.
Qed.

(** C4.  When the advancement function returns a later instant that is a
    trading instant of the calendar, the first timestamp is the
    advancement of [first_open] by one day, every further timestamp is the
    advancement of the one before it by one day, the timestamps increase
    strictly, and each is a trading instant. *)
Theorem updown_timestamps (is_trading_instant : datetime -> Prop)
    sid0 trade_count trading_environment base_price amplitude
    (Hadvance : forall cur,
        (cur < get_next_trading_dt cur (timedelta 1) trading_environment)%Z
        /\ is_trading_instant
             (get_next_trading_dt cur (timedelta 1) trading_environment)) :
  let ts := timestamps (fst (create_updown_trade_source
                               get_next_trading_dt repr
                               sid0 trade_count trading_environment
                               base_price amplitude)) in
  (forall t0, ts !! 0%nat = Some t0 ->
     t0 = get_next_trading_dt (first_open trading_environment)
                              (timedelta 1) trading_environment)
  /\ (forall i t t', ts !! i = Some t -> ts !! S i = Some t' ->
        t' = get_next_trading_dt t (timedelta 1) trading_environment)
  /\ (forall i j t t', (i < j)%nat -> ts !! i = Some t -> ts !! j = Some t' ->
        (t < t')%Z)
  /\ Forall is_trading_instant ts.
Proof.
  cbn zeta. repeat split.
  - intros t0 H0. apply generate_timestamp_lookup in H0.
    destruct H0 as [_ ->]. reflexivity.
  - intros i t t' Ht Ht'. apply generate_timestamp_lookup in Ht, Ht'.
    destruct Ht as [_ ->], Ht' as [_ ->].
    unfold state_after. rewrite (loop_cur_step _ _ _ _ _ (S i)). reflexivity.
  - intros i j t t' Hij Ht Ht'. apply generate_timestamp_lookup in Ht, Ht'.
    destruct Ht as [_ ->], Ht' as [_ ->].
    apply state_after_cur_lt; [intros cur; apply Hadvance | lia].
  - apply Forall_lookup_2. intros i t Ht.
    apply generate_timestamp_lookup in Ht. destruct Ht as [_ ->].
    unfold state_after. rewrite loop_cur_step. apply Hadvance.
Qed.

(** C5.  When at least one event was generated, the environment's
    [period_end] after the call is the timestamp of the last event. *)
Theorem updown_period_end sid0 trade_count trading_environment
    base_price amplitude :
  let r := create_updown_trade_source get_next_trading_dt repr
             sid0 trade_count trading_environment base_price amplitude in
  event_list (fst r) <> [] ->
  last (timestamps (fst r)) = Some (period_end (snd r)).
Proof.
  cbn zeta. unfold timestamps.
  rewrite generate_period_end, generate_events. unfold state_after.
  destruct (xrange_len (trade_count + 2)) as [|n];
    [intros H; destruct H; reflexivity|].
  intros _. rewrite loop_events_snoc, fmap_app, loop_cur_step.
  cbn [fmap list_fmap]. rewrite last_snoc. reflexivity.
Qed.

(** C10.  For a trade count of at most [-2] the loop runs zero times, the
    event list of the source is empty, and [period_end] is set to
    [first_open]. *)
Theorem updown_no_iteration sid0 trade_count trading_environment
    base_price amplitude :
  (trade_count <= -2)%Z ->
  let r := create_updown_trade_source get_next_trading_dt repr
             sid0 trade_count trading_environment base_price amplitude in
  xrange_len (trade_count + 2) = 0%nat
  /\ event_list (fst r) = []
  /\ period_end (snd r) = first_open trading_environment.
Proof.
  intros Hle. cbn zeta.
  assert (H0 : xrange_len (trade_count + 2) = 0%nat) by (unfold xrange_len; lia).
  rewrite generate_events, generate_period_end, H0. repeat split.
Qed.

End UpDownTheorems.

(** ** The monad and the dict operations *)

Section MonadFacts.

Context {A B C : Type}.

Lemma bind_ret (a : A) (k : A -> M B) st : bind (ret a) k st = k a st.
Proof. reflexivity. Qed.

Lemma bind_raise (e : Exception) (k : A -> M B) st :
  bind (raise e) k st = (Raise e, st).
Proof. reflexivity. Qed.

Lemma bind_assoc (m : M A) (f : A -> M B) (g : B -> M C) st :
  bind (bind m f) g st = bind m (fun x => bind (f x) g) st.
Proof. unfold bind. destruct (m st) as [[a|e] st']; reflexivity. Qed.

Lemma bind_lift (r : Result A) (k : A -> M B) st :
  bind (lift r) k st
  = match r with Ok a => k a st | Raise e => (Raise e, st) end.
Proof. unfold bind, lift. destruct r; reflexivity. Qed.

Lemma bind_as_int (v : Value) (k : Z -> M B) st :
  bind (as_int v) k st
  = match v with VInt z => k z st | _ => (Raise TypeError, st) end.
Proof. destruct v; reflexivity. Qed.

Lemma bind_float_conversion (z : Z) (k : unit -> M B) st :
  bind (float_conversion z) k st
  = if float_overflows z then (Raise OverflowError, st) else k tt st.
Proof. unfold float_conversion. destruct (float_overflows z); reflexivity. Qed.

Lemma bind_log (c : Call) (k : unit -> M B) S cs :
  bind (log c) k (mkState S cs) = k tt (mkState S (cs ++ [c])).
Proof. reflexivity. Qed.

End MonadFacts.

Section DictFacts.

Context {B : Type}.
Variables (S : gmap ref (gmap string Value)) (cs : list Call)
          (l : ref) (d : gmap string Value).

Lemma bind_load (k : gmap string Value -> M B) :
  bind (load l) k (mkState (<[l := d]> S) cs)
  = k d (mkState (<[l := d]> S) cs).
Proof. unfold bind, load. cbn [store]. rewrite lookup_insert_eq. reflexivity. Qed.

Lemma bind_getitem key (k : Value -> M B) :
  bind (getitem l key) k (mkState (<[l := d]> S) cs)
  = match d !! key with
    | Some v => k v (mkState (<[l := d]> S) cs)
    | None => (Raise (KeyError key), mkState (<[l := d]> S) cs)
    end.
Proof.
  unfold getitem. rewrite bind_assoc, bind_load.
  destruct (d !! key); reflexivity.
Qed.

Lemma bind_pop key dflt (k : Value -> M B) :
  bind (pop l key dflt) k (mkState (<[l := d]> S) cs)
  = k (default dflt (d !! key)) (mkState (<[l := delete key d]> S) cs).
Proof.
  unfold pop. rewrite bind_assoc, bind_load.
  destruct (d !! key) as [v|] eqn:E.
  - unfold bind at 1. unfold bind at 1. unfold save. cbn [store calls].
    rewrite insert_insert_eq. reflexivity.
  - rewrite bind_ret. rewrite (delete_id d key E). reflexivity.
Qed.

Lemma bind_contains key (k : bool -> M B) :
  bind (contains l key) k (mkState (<[l := d]> S) cs)
  = k (bool_decide (is_Some (d !! key))) (mkState (<[l := d]> S) cs).
Proof. unfold contains. rewrite bind_assoc, bind_load. reflexivity. Qed.

Lemma bind_setitem key v (k : unit -> M B) :
  bind (setitem l key v) k (mkState (<[l := d]> S) cs)
  = k tt (mkState (<[l := <[key := v]> d]> S) cs).
Proof.
  unfold setitem. rewrite bind_assoc, bind_load.
  unfold bind, save. cbn [store calls]. rewrite insert_insert_eq. reflexivity.
Qed.

End DictFacts.

Lemma bind_copy {B} (l : ref) (k : ref -> M B) st d :
  store st !! l = Some d ->
  bind (copy l) k st
  = k (fresh (dom (store st)))
      (mkState (<[fresh (dom (store st)) := d]> (store st)) (calls st)).
Proof.
  intros H. unfold copy. rewrite bind_assoc. unfold bind at 1, load.
  rewrite H. reflexivity.
Qed.

Lemma copy_dangling {B} (l : ref) (k : ref -> M B) st :
  store st !! l = None -> bind (copy l) k st = (Raise DanglingReference, st).
Proof.
  intros H. unfold copy. rewrite bind_assoc. unfold bind at 1, load.
  rewrite H. reflexivity.
Qed.

Lemma fresh_ref_ne (S : gmap ref (gmap string Value)) l d :
  S !! l = Some d -> fresh (dom S) <> l.
Proof.
  intros H E. apply (is_fresh (dom S)). rewrite E.
  apply elem_of_dom. eauto.
Qed.

(** ** Frame: the operations on one dict leave the others alone *)

Section Frame.

Context {A B : Type}.
Variable l : ref.

Lemma preserves_bind (m : M A) (k : A -> M B) :
  preserves l m -> (forall a, preserves l (k a)) -> preserves l (bind m k).
Proof.
  intros Hm Hk st. unfold bind. specialize (Hm st).
  destruct (m st) as [[a|e] st1]; cbn [snd] in *.
  - rewrite Hk. exact Hm.
  - exact Hm.
Qed.

Lemma preserves_ret (a : A) : preserves l (ret a).
Proof. intros st. reflexivity. Qed.

Lemma preserves_raise e : preserves l (@raise A e).
Proof. intros st. reflexivity. Qed.

Lemma preserves_lift (r : Result A) : preserves l (lift r).
Proof. intros st. reflexivity. Qed.

Lemma preserves_if (b : bool) (m1 m2 : M A) :
  preserves l m1 -> preserves l m2 -> preserves l (if b then m1 else m2).
Proof. destruct b; auto. Qed.

End Frame.

Lemma preserves_log l c : preserves l (log c).
Proof. intros st. reflexivity. Qed.

Lemma preserves_load l l' : preserves l (load l').
Proof. intros st. unfold load. destruct (store st !! l'); reflexivity. Qed.

Lemma preserves_save l l' d : l' <> l -> preserves l (save l' d).
Proof. intros Hne st. unfold save. cbn [snd store]. apply lookup_insert_ne, Hne. Qed.

Lemma preserves_as_int l v : preserves l (as_int v).
Proof. destruct v; intros st; reflexivity. Qed.

Create HintDb frame.
#[local] Hint Resolve preserves_ret preserves_raise preserves_lift preserves_log
  preserves_load preserves_save preserves_as_int : frame.

Ltac frame :=
  repeat first
    [ apply preserves_bind; [|intros ?]
    | apply preserves_if
    | match goal with |- preserves _ (match ?x with _ => _ end) => destruct x end
    | solve [auto with frame] ].

Lemma preserves_getitem l l' key : preserves l (getitem l' key).
Proof. unfold getitem. frame. Qed.

Lemma preserves_pop l l' key dflt : l' <> l -> preserves l (pop l' key dflt).
Proof. intros Hne. unfold pop. frame. Qed.

Lemma preserves_contains l l' key : preserves l (contains l' key).
Proof. unfold contains. frame. Qed.

Lemma preserves_setitem l l' key v : l' <> l -> preserves l (setitem l' key v).
Proof. intros Hne. unfold setitem. frame. Qed.

Lemma preserves_py_sub l v z : preserves l (py_sub v z).
Proof. unfold py_sub. frame. Qed.

#[local] Hint Resolve preserves_getitem preserves_pop preserves_contains
  preserves_setitem preserves_py_sub : frame.

(** ** [create_predictable_zipline] *)

Ltac run_step :=
  first [ rewrite bind_assoc | rewrite bind_getitem | rewrite bind_pop
        | rewrite bind_contains | rewrite bind_setitem | rewrite bind_load
        | rewrite bind_log | rewrite bind_lift | rewrite bind_as_int
        | rewrite bind_ret ].

Ltac run_step_in H :=
  first [ rewrite bind_assoc in H | rewrite bind_getitem in H
        | rewrite bind_pop in H | rewrite bind_contains in H
        | rewrite bind_setitem in H | rewrite bind_load in H
        | rewrite bind_log in H | rewrite bind_lift in H
        | rewrite bind_as_int in H | rewrite bind_ret in H ].

Section ComposerTheorems.

Variable get_next_trading_dt :
  datetime -> timedelta_t -> TradingEnvironment -> datetime.
Variable repr : Value -> string.
Variable create_trading_environment : Result TradingEnvironment.
Variable Zipline : Type.
Variable create_test_zipline : gmap string Value -> Result Zipline.
Variable zipline_simulate : Zipline -> bool -> Result Zipline.

Local Abbreviation generate :=
  (create_updown_trade_source get_next_trading_dt repr).
Local Abbreviation run :=
  (create_predictable_zipline get_next_trading_dt repr
     create_trading_environment Zipline create_test_zipline zipline_simulate).

Lemma run_inversion st l d offset simulate z l' st' :
  store st !! l = Some d ->
  run l offset simulate st = (Ok (z, l'), st') ->
  exists sid0 amplitude base_price trade_count env,
    d !! "sid" = Some sid0
    /\ default (VInt 10) (d !! "amplitude") = VInt amplitude
    /\ default (VInt 50) (d !! "base_price") = VInt base_price
    /\ default (VInt 3) (d !! "trade_count") = VInt trade_count
    /\ create_trading_environment = Ok env
    /\ l' = fresh (dom (store st))
    /\ let r := generate sid0 trade_count env base_price amplitude in
       let cfg := composed_config d sid0 trade_count (fst r) (snd r) offset in
       store st' = <[l' := cfg]> (store st)
       /\ calls st' = calls st ++ calls_of_run
                        (bool_decide (is_Some (d !! "algorithm"))) simulate
       /\ exists z0, create_test_zipline cfg = Ok z0
                     /\ (if simulate then zipline_simulate z0 true = Ok z
                         else z = z0)
                     /\ float_overflows amplitude = false
                     /\ float_overflows base_price = false.
Proof.
  intros Hl Hrun. unfold create_predictable_zipline in Hrun.
  rewrite (bind_copy _ _ _ _ Hl) in Hrun.
  rewrite bind_getitem in Hrun.
  destruct (d !! "sid") as [sid0|] eqn:Hsid; [|discriminate].
  repeat rewrite bind_pop in Hrun.
  rewrite bind_assoc, bind_log, bind_lift in Hrun.
  destruct create_trading_environment as [env|e] eqn:Henv; [|discriminate].
  unfold call_create_updown_trade_source in Hrun.
  rewrite bind_assoc, bind_log, bind_assoc, bind_as_int in Hrun.
  rewrite !lookup_delete_ne in Hrun by done.
  destruct (default (VInt 10) (d !! "amplitude")) as [| amplitude | | | | | |]
    eqn:Hamp; try discriminate.
  rewrite bind_assoc, bind_float_conversion in Hrun.
  destruct (float_overflows amplitude) eqn:Hoa; [discriminate|].
  rewrite bind_assoc, bind_as_int in Hrun.
  destruct (default (VInt 50) (d !! "base_price")) as [| base_price | | | | | |]
    eqn:Hbase; try discriminate.
  rewrite bind_assoc, bind_float_conversion in Hrun.
  destruct (float_overflows base_price) eqn:Hob; [discriminate|].
  rewrite bind_assoc, bind_as_int in Hrun.
  destruct (default (VInt 3) (d !! "trade_count")) as [| trade_count | | | | | |]
    eqn:Hcount; try discriminate.
  rewrite bind_ret, bind_contains in Hrun.
  rewrite !lookup_delete_ne in Hrun by done.
  exists sid0, amplitude, base_price, trade_count, env.
  do 5 (split; [reflexivity|]).
  unfold composed_config, calls_of_run. cbn zeta.
  rewrite !lookup_delete_ne by done.
  destruct (bool_decide (is_Some (d !! "algorithm"))); cbn [negb] in Hrun;
    repeat run_step_in Hrun; unfold py_sub in Hrun; repeat run_step_in Hrun.
  all: match type of Hrun with
       | context [create_test_zipline ?c] =>
           destruct (create_test_zipline c) as [z0|e] eqn:Hz0; [|discriminate]
       end.
  all: destruct simulate; repeat run_step_in Hrun.
  all: try (destruct (zipline_simulate z0 true) as [z1|e] eqn:Hz1;
            [|discriminate]).
  all: injection Hrun as <- <- <-; cbn [store calls].
  all: rewrite <- !app_assoc; cbn [app].
  all: repeat split; eauto.
Qed.

Lemma run_returns st l d offset (simulate : bool) sid0 amplitude base_price
    trade_count env z0 z :
  let r := generate sid0 trade_count env base_price amplitude in
  let cfg := composed_config d sid0 trade_count (fst r) (snd r) offset in
  store st !! l = Some d ->
  d !! "sid" = Some sid0 ->
  default (VInt 10) (d !! "amplitude") = VInt amplitude ->
  default (VInt 50) (d !! "base_price") = VInt base_price ->
  default (VInt 3) (d !! "trade_count") = VInt trade_count ->
  float_overflows amplitude = false ->
  float_overflows base_price = false ->
  create_trading_environment = Ok env ->
  create_test_zipline cfg = Ok z0 ->
  (if simulate then zipline_simulate z0 true = Ok z else z = z0) ->
  run l offset simulate st
  = (Ok (z, fresh (dom (store st))),
     mkState (<[fresh (dom (store st)) := cfg]> (store st))
             (calls st ++ calls_of_run
                            (bool_decide (is_Some (d !! "algorithm")))
                            simulate)).
Proof.
  cbn zeta. intros Hl Hsid Hamp Hbase Hcount Hoa Hob Henv Hz0 Hz.
  unfold create_predictable_zipline.
  rewrite (bind_copy _ _ _ _ Hl), bind_getitem, Hsid.
  repeat rewrite bind_pop.
  rewrite bind_assoc, bind_log, bind_lift, Henv.
  unfold call_create_updown_trade_source.
  rewrite bind_assoc, bind_log, bind_assoc, bind_as_int.
  rewrite !lookup_delete_ne by done. rewrite Hamp.
  rewrite bind_assoc, bind_float_conversion, Hoa.
  rewrite bind_assoc, bind_as_int, Hbase.
  rewrite bind_assoc, bind_float_conversion, Hob.
  rewrite bind_assoc, bind_as_int, Hcount.
  rewrite bind_ret, bind_contains.
  revert Hz0. unfold composed_config, calls_of_run. cbn zeta.
  rewrite !lookup_delete_ne by done. intros Hz0.
  destruct (bool_decide (is_Some (d !! "algorithm"))); cbn [negb];
    repeat run_step; unfold py_sub; repeat run_step; rewrite Hz0.
  all: destruct simulate; repeat run_step; [rewrite Hz | subst z].
  all: rewrite <- !app_assoc; reflexivity.
Qed.

Lemma run_missing_sid st l d offset simulate :
  store st !! l = Some d -> d !! "sid" = None ->
  run l offset simulate st
  = (Raise (KeyError "sid"),
     mkState (<[fresh (dom (store st)) := d]> (store st)) (calls st)).
Proof.
  intros Hl Hsid. unfold create_predictable_zipline.
  rewrite (bind_copy _ _ _ _ Hl), bind_getitem, Hsid. reflexivity.
Qed.

Lemma preserves_apply {A} l (m : M A) st x :
  preserves l m -> store st !! l = x -> store (snd (m st)) !! l = x.
Proof. intros Hm <-. apply Hm. Qed.

(** C2, as amended.  With an environment factory and an engine that do
    not fail, composing the configuration holding only sid 1, with
    offset 0, returns a final configuration that contains trade_count 3,
    order_count 2 and the default algorithm built from sid 1, amount 100
    and offset 0.  The defaults amplitude 10 and base_price 50 are not
    keys of it: they are the arguments of the call that builds its
    trade_source. *)
Theorem compose_sid_only st l (simulate : bool) env :
  (forall kwargs, exists z, create_test_zipline kwargs = Ok z) ->
  (forall z b, exists z', zipline_simulate z b = Ok z') ->
  create_trading_environment = Ok env ->
  store st !! l = Some {[ "sid" := VInt 1 ]} ->
  exists z l' st' cfg,
    create_predictable_zipline get_next_trading_dt repr
       create_trading_environment Zipline create_test_zipline zipline_simulate
       l 0 simulate st = (Ok (z, l'), st')
    /\ store st' !! l' = Some cfg
    /\ cfg !! "trade_count" = Some (VInt 3)
    /\ cfg !! "order_count" = Some (VInt 2)
    /\ cfg !! "algorithm" = Some (VAlgorithm (BuySellAlgorithm (VInt 1) 100 0))
    /\ cfg !! "trade_source"
       = Some (VSource (fst (create_updown_trade_source
                               get_next_trading_dt repr (VInt 1) 3 env 50 10)))
    /\ cfg !! "amplitude" = None
    /\ cfg !! "base_price" = None.
Proof.
  intros Hcreate Hsim Henv Hl.
  set (r := generate (VInt 1) 3 env 50 10).
  set (cfg := composed_config {[ "sid" := VInt 1 ]} (VInt 1) 3 (fst r) (snd r) 0).
  destruct (Hcreate cfg) as [z0 Hz0].
  assert (Hz : exists z, if simulate then zipline_simulate z0 true = Ok z
                         else z = z0).
  { destruct simulate; [apply Hsim | eauto]. }
  destruct Hz as [z Hz].
  exists z, (fresh (dom (store st))). eexists. exists cfg. split.
  - apply (run_returns st l {[ "sid" := VInt 1 ]} 0 simulate (VInt 1) 10 50 3
                       env z0 z); try done.
  - cbn [store]. rewrite lookup_insert_eq. repeat split; reflexivity.
Qed.

(** C6.  Whatever the configuration and whatever the outcome, the dict
    object of the caller holds after the call what it held before. *)
Theorem config_not_mutated st l offset simulate :
  store (snd (create_predictable_zipline get_next_trading_dt repr
       create_trading_environment Zipline create_test_zipline zipline_simulate
       l offset simulate st)) !! l = store st !! l.
Proof.
  unfold create_predictable_zipline.
  destruct (store st !! l) as [d|] eqn:Hl.
  - rewrite (bind_copy _ _ _ _ Hl).
    pose proof (fresh_ref_ne _ _ _ Hl) as Hne.
    apply preserves_apply.
    + unfold call_create_updown_trade_source. cbn zeta. frame.
    + cbn [store]. rewrite lookup_insert_ne by exact Hne. exact Hl.
  - rewrite (copy_dangling _ _ _ Hl). exact Hl.
Qed.

(** C7.  In the final configuration of a call that returns, trade_count
    is the caller's value, or 3 when there was none, and order_count is
    that number minus one. *)
Theorem order_count_derivation st l d offset simulate z l' st' :
  store st !! l = Some d ->
  create_predictable_zipline get_next_trading_dt repr
       create_trading_environment Zipline create_test_zipline zipline_simulate
       l offset simulate st = (Ok (z, l'), st') ->
  exists cfg trade_count,
    store st' !! l' = Some cfg
    /\ default (VInt 3) (d !! "trade_count") = VInt trade_count
    /\ cfg !! "trade_count" = Some (VInt trade_count)
    /\ cfg !! "order_count" = Some (VInt (trade_count - 1)).
Proof.
  intros Hl Hrun.
  destruct (run_inversion _ _ _ _ _ _ _ _ Hl Hrun)
    as (sid0 & a & b & tc & env & _ & _ & _ & Htc & _ & _ & Hstore & _).
  cbn zeta in Hstore. eexists. exists tc.
  rewrite Hstore, lookup_insert_eq. split; [reflexivity|].
  split; [exact Htc|]. unfold composed_config. cbn zeta.
  split; by simplify_map_eq.
Qed.

(** C8.  Without the key sid the call raises the KeyError of the lookup,
    and it has called neither the environment factory, nor the event
    generator, nor the engine. *)
Theorem missing_sid_is_key_error st l d offset simulate :
  store st !! l = Some d ->
  d !! "sid" = None ->
  fst (create_predictable_zipline get_next_trading_dt repr
       create_trading_environment Zipline create_test_zipline zipline_simulate
       l offset simulate st) = Raise (KeyError "sid")
  /\ calls (snd (create_predictable_zipline get_next_trading_dt repr
       create_trading_environment Zipline create_test_zipline zipline_simulate
       l offset simulate st)) = calls st.
Proof.
  intros Hl Hsid. rewrite (run_missing_sid _ _ _ _ _ Hl Hsid). split; reflexivity.
Qed.

(** C9.  The final configuration of a call that returns has neither the
    key amplitude nor the key base_price, whether or not the caller
    supplied them. *)
Theorem popped_keys_absent st l d offset simulate z l' st' :
  store st !! l = Some d ->
  create_predictable_zipline get_next_trading_dt repr
       create_trading_environment Zipline create_test_zipline zipline_simulate
       l offset simulate st = (Ok (z, l'), st') ->
  exists cfg,
    store st' !! l' = Some cfg
    /\ cfg !! "amplitude" = None
    /\ cfg !! "base_price" = None.
Proof.
  intros Hl Hrun.
  destruct (run_inversion _ _ _ _ _ _ _ _ Hl Hrun)
    as (sid0 & a & b & tc & env & _ & _ & _ & _ & _ & _ & Hstore & _).
  cbn zeta in Hstore. eexists.
  rewrite Hstore, lookup_insert_eq. split; [reflexivity|].
  unfold composed_config. cbn zeta.
  split; case_bool_decide; by simplify_map_eq.
Qed.

End ComposerTheorems.

(** ** The theorems on the sample collaborators *)

Lemma every_day_advances cur env :
  (cur < every_day cur (timedelta 1) env)%Z /\ True.
Proof. unfold every_day, timedelta. split; [lia | exact I]. Qed.

Lemma fifty_and_ten_in_range :
  (Z.abs 50 <= 2 ^ 51)%Z /\ (Z.abs 10 <= 2 ^ 51)%Z.
Proof. split; apply Z.leb_le; reflexivity. Qed.

Lemma updown_prices_alternate_witness :
  (Z.abs 50 <= 2 ^ 51)%Z
  /\ (Z.abs 10 <= 2 ^ 51)%Z
  /\ Forall2 has_value
       (prices (fst (create_updown_trade_source every_day no_repr
                       (VInt 1) 3 sample_environment 50 10)))
       [45; 55; 45; 55; 45]%Q.
Proof.
  split; [exact (proj1 fifty_and_ten_in_range)|].
  split; [exact (proj2 fifty_and_ten_in_range)|].
  exact (proj2 (proj2 (updown_prices_alternate every_day no_repr (VInt 1) 3
                         sample_environment 50 10
                         (proj1 fifty_and_ten_in_range)
                         (proj2 fifty_and_ten_in_range)))).
Defined.

(** At base price 2^52 - 1 and amplitude 3 the first price is
    4503599627370493.5 and the second is 4503599627370496: the sum
    4503599627370496.5 is not a binary64 number and rounds to even, so that
    the second price is not the first plus the amplitude. *)
Lemma updown_prices_rounded_above_2_52 :
  let ps := prices (fst (create_updown_trade_source every_day no_repr
                           (VInt 1) 0 sample_environment (2 ^ 52 - 1) 3)) in
  exists p0 p1 q0 q1,
    ps !! 0%nat = Some p0 /\ ps !! 1%nat = Some p1
    /\ float_value p0 = Some q0 /\ float_value p1 = Some q1
    /\ (q0 == 9007199254740987 # 2)%Q
    /\ (q1 == 4503599627370496 # 1)%Q
    /\ ~ (q1 == q0 + inject_Z 3)%Q.
Proof.
  cbn zeta.
  assert (Hps : prices (fst (create_updown_trade_source every_day no_repr
                               (VInt 1) 0 sample_environment (2 ^ 52 - 1) 3))
                = [S754_finite false 9007199254740987 (-1);
                   S754_finite false 4503599627370496 0])
    by (vm_compute; reflexivity).
  rewrite Hps.
  eexists _, _, _, _.
  split; [reflexivity|]. split; [reflexivity|].
  split; [reflexivity|]. split; [reflexivity|].
  split; [vm_compute; reflexivity|]. split; [vm_compute; reflexivity|].
  vm_compute. discriminate.
Qed.

(** A trade count of [-3] gives no event, not [-1] of them. *)
Lemma updown_event_count_below_minus_two :
  Z.of_nat (length (event_list (fst (create_updown_trade_source
                                       every_day no_repr (VInt 1) (-3)
                                       sample_environment 50 10))))
  <> (-3 + 2)%Z.
Proof. vm_compute. discriminate. Qed.

Lemma updown_timestamps_witness :
  let ts := timestamps (fst (create_updown_trade_source every_day no_repr
                               (VInt 1) 3 sample_environment 50 10)) in
  (forall cur, (cur < every_day cur (timedelta 1) sample_environment)%Z /\ True)
  /\ ts = [86400000000; 172800000000; 259200000000; 345600000000;
           432000000000]%Z
  /\ (forall i j t t', (i < j)%nat -> ts !! i = Some t -> ts !! j = Some t' ->
        (t < t')%Z).
Proof.
  cbn zeta. split; [intros cur; apply every_day_advances|].
  split; [reflexivity|].
  apply (updown_timestamps every_day no_repr (fun _ => True) (VInt 1) 3
           sample_environment 50 10
           (fun cur => every_day_advances cur sample_environment)).
Defined.

Lemma updown_period_end_witness :
  let r := create_updown_trade_source every_day no_repr (VInt 1) 3
             sample_environment 50 10 in
  event_list (fst r) <> []
  /\ last (timestamps (fst r)) = Some (period_end (snd r)).
Proof.
  cbn zeta.
  assert (H : event_list (fst (create_updown_trade_source every_day no_repr
                                 (VInt 1) 3 sample_environment 50 10)) <> [])
    by (vm_compute; discriminate).
  split; [exact H|].
  exact (updown_period_end every_day no_repr (VInt 1) 3 sample_environment
           50 10 H).
Defined.

Lemma updown_no_iteration_witness :
  let r := create_updown_trade_source every_day no_repr (VInt 1) (-5)
             sample_environment 50 10 in
  (-5 <= -2)%Z
  /\ xrange_len (-5 + 2) = 0%nat
  /\ event_list (fst r) = []
  /\ period_end (snd r) = first_open sample_environment.
Proof.
  cbn zeta. split; [lia|].
  apply (updown_no_iteration every_day no_repr (VInt 1) (-5)
           sample_environment 50 10). lia.
Defined.

Lemma sample_run_full :
  sample_run config_full 0 true
  = (Ok (true, 2%positive), snd (sample_run config_full 0 true)).
Proof. vm_compute. reflexivity. Qed.

Lemma sample_create_total (kwargs : gmap string Value) :
  exists z, sample_create kwargs = Ok z.
Proof. exists false. reflexivity. Qed.

Lemma sample_simulate_total (z b : bool) :
  exists z', sample_simulate z b = Ok z'.
Proof. exists true. reflexivity. Qed.

(** The run on the configuration holding only sid 1 returns a final
    configuration in which [amplitude] and [base_price] are not keys. *)
Lemma compose_sid_only_lacks_popped_keys :
  exists z l' st' cfg,
    sample_run config_sid_only 0 true = (Ok (z, l'), st')
    /\ store st' !! l' = Some cfg
    /\ cfg !! "trade_count" = Some (VInt 3)
    /\ cfg !! "order_count" = Some (VInt 2)
    /\ cfg !! "amplitude" <> Some (VInt 10)
    /\ cfg !! "base_price" <> Some (VInt 50).
Proof.
  exists true, 2%positive. eexists. eexists. split.
  - unfold sample_run.
    apply (run_returns every_day no_repr (Ok sample_environment) bool
             sample_create sample_simulate (sample_state config_sid_only)
             1%positive config_sid_only 0 true (VInt 1) 10 50 3
             sample_environment false true); reflexivity.
  - cbn [store]. rewrite lookup_insert_eq.
    split; [reflexivity|]. repeat split; vm_compute; congruence.
Qed.

Lemma compose_sid_only_witness :
  exists z l' st' cfg,
    sample_run config_sid_only 0 true = (Ok (z, l'), st')
    /\ store st' !! l' = Some cfg
    /\ cfg !! "trade_count" = Some (VInt 3)
    /\ cfg !! "order_count" = Some (VInt 2)
    /\ cfg !! "algorithm" = Some (VAlgorithm (BuySellAlgorithm (VInt 1) 100 0))
    /\ cfg !! "trade_source"
       = Some (VSource (fst (create_updown_trade_source every_day no_repr
                               (VInt 1) 3 sample_environment 50 10)))
    /\ cfg !! "amplitude" = None
    /\ cfg !! "base_price" = None.
Proof.
  apply (compose_sid_only every_day no_repr (Ok sample_environment) bool
           sample_create sample_simulate (sample_state config_sid_only)
           1%positive true sample_environment
           sample_create_total sample_simulate_total eq_refl).
  reflexivity.
Defined.

Lemma order_count_derivation_witness :
  store (sample_state config_full) !! 1%positive = Some config_full
  /\ exists cfg trade_count,
       store (snd (sample_run config_full 0 true)) !! 2%positive = Some cfg
       /\ default (VInt 3) (config_full !! "trade_count") = VInt trade_count
       /\ cfg !! "trade_count" = Some (VInt trade_count)
       /\ cfg !! "order_count" = Some (VInt (trade_count - 1)).
Proof.
  split; [reflexivity|].
  apply (order_count_derivation every_day no_repr (Ok sample_environment) bool
           sample_create sample_simulate (sample_state config_full)
           1%positive config_full 0 true true 2%positive
           (snd (sample_run config_full 0 true)) eq_refl sample_run_full).
Defined.

Lemma missing_sid_is_key_error_witness :
  config_no_sid !! "sid" = None
  /\ fst (sample_run config_no_sid 0 true) = Raise (KeyError "sid")
  /\ calls (snd (sample_run config_no_sid 0 true)) = [].
Proof.
  split; [reflexivity|].
  apply (missing_sid_is_key_error every_day no_repr (Ok sample_environment)
           bool sample_create sample_simulate (sample_state config_no_sid)
           1%positive config_no_sid 0 true); reflexivity.
Defined.

Lemma popped_keys_absent_witness :
  config_full !! "amplitude" = Some (VInt 4)
  /\ config_full !! "base_price" = Some (VInt 20)
  /\ exists cfg,
       store (snd (sample_run config_full 0 true)) !! 2%positive = Some cfg
       /\ cfg !! "amplitude" = None
       /\ cfg !! "base_price" = None.
Proof.
  split; [reflexivity|]. split; [reflexivity|].
  apply (popped_keys_absent every_day no_repr (Ok sample_environment) bool
           sample_create sample_simulate (sample_state config_full)
           1%positive config_full 0 true true 2%positive
           (snd (sample_run config_full 0 true)) eq_refl sample_run_full).
Defined.

(** ** Further runs on the sample collaborators *)

(** The source is named after the sid. *)
Example source_id_of_sid_1 :
  source_id (fst (create_updown_trade_source every_day no_repr (VInt 1) 3
                    sample_environment 50 10)) = "updown_1".
Proof. reflexivity. Qed.

(** An odd amplitude gives prices between the integers. *)
Example prices_of_odd_amplitude :
  Forall2 has_value
    (prices (fst (create_updown_trade_source every_day no_repr
                    (VInt 1) 1 sample_environment 50 5)))
    [95 # 2; 105 # 2; 95 # 2]%Q.
Proof.
  assert (Hps : prices (fst (create_updown_trade_source every_day no_repr
                               (VInt 1) 1 sample_environment 50 5))
                = [S754_finite false 6685030696878080 (-47);
                   S754_finite false 7388718138654720 (-47);
                   S754_finite false 6685030696878080 (-47)])
    by (vm_compute; reflexivity).
  rewrite Hps.
  repeat (constructor; [eexists; split; [reflexivity|vm_compute; reflexivity]|]).
  constructor.
Qed.

(** The literal [2.] is the conversion of the int 2, and an int of 1024
    bits or more does not convert. *)
Example float_two_is_two : float_of_int 2 = float_two.
Proof. reflexivity. Qed.

Example float_overflows_at_2_1024 :
  float_overflows (2 ^ 1024 - 2 ^ 970 - 1) = false
  /\ float_overflows (2 ^ 1024 - 2 ^ 970) = true
  /\ float_overflows (10 ^ 400) = true.
Proof. repeat split; vm_compute; reflexivity. Qed.

(** A trade count that is not a number raises [TypeError] in the generator,
    after the environment was created. *)
Example trade_count_not_a_number :
  let r := sample_run (<["trade_count" := VStr "three"]> config_sid_only) 0 true in
  fst r = Raise TypeError
  /\ calls (snd r)
     = [Call_create_trading_environment; Call_create_updown_trade_source].
Proof. split; reflexivity. Qed.

(** An algorithm of the caller is kept, and no default one is built; with
    [simulate] false the engine is not run. *)
Example supplied_algorithm_kept :
  let mine := VAlgorithm (UserAlgorithm "mine") in
  let r := sample_run (<["algorithm" := mine]> config_sid_only) 5 false in
  fst r = Ok (false, 2%positive)
  /\ (store (snd r) !! 2%positive) ≫= (.!! "algorithm") = Some mine
  /\ calls (snd r)
     = [Call_create_trading_environment; Call_create_updown_trade_source;
        Call_create_test_zipline].
Proof. repeat split; reflexivity. Qed.

(** A full run: the calls in their order. *)
Example calls_of_full_run :
  calls (snd (sample_run config_sid_only 0 true))
  = [Call_create_trading_environment; Call_create_updown_trade_source;
     Call_BuySellAlgorithm; Call_create_test_zipline; Call_simulate].
Proof. reflexivity. Qed.

(** ** More on the event sequence of [create_updown_trade_source] *)

Section LoopIndependence.

Variables (f f' : datetime -> timedelta_t -> TradingEnvironment -> datetime)
          (sid0 sid0' : Value) (env env' : TradingEnvironment)
          (amplitude amplitude' : Z) (one_day one_day' : timedelta_t).

(** The prices depend on the price, the iterator and the amplitude only. *)
Lemma loop_prices_agree n st st' :
  amplitude = amplitude' ->
  l_price st = l_price st' -> l_change st = l_change st' ->
  price <$> l_events st = price <$> l_events st' ->
  price <$> l_events (for_xrange f sid0 env amplitude one_day n st)
  = price <$> l_events (for_xrange f' sid0' env' amplitude' one_day' n st').
Proof.
  intros <-. revert st st'. induction n as [|n IH]; intros st st' Hp Hc He.
  - exact He.
  - cbn [for_xrange]. apply IH.
    + rewrite !body_price, Hp, Hc. reflexivity.
    + rewrite !body_change, Hc. reflexivity.
    + rewrite !body_events, !fmap_app, He. cbn. rewrite Hp. reflexivity.
Qed.

(** The timestamps depend on the cursor and the calendar only. *)
Lemma loop_timestamps_agree n st st' :
  f = f' -> env = env' -> one_day = one_day' ->
  l_cur st = l_cur st' ->
  dt <$> l_events st = dt <$> l_events st' ->
  dt <$> l_events (for_xrange f sid0 env amplitude one_day n st)
  = dt <$> l_events (for_xrange f' sid0' env' amplitude' one_day' n st').
Proof.
  intros <- <- <-. revert st st'. induction n as [|n IH]; intros st st' Hc He.
  - exact He.
  - cbn [for_xrange]. apply IH.
    + rewrite !body_cur. cbn. rewrite Hc. reflexivity.
    + rewrite !body_events, !fmap_app, He. cbn. rewrite Hc. reflexivity.
Qed.

End LoopIndependence.

Section LoopGrowth.

Variable get_next_trading_dt :
  datetime -> timedelta_t -> TradingEnvironment -> datetime.
Variables (sid0 : Value) (trading_environment : TradingEnvironment)
          (amplitude : Z) (one_day : timedelta_t).

Local Abbreviation loop :=
  (for_xrange get_next_trading_dt sid0 trading_environment amplitude one_day).

Lemma loop_add n k st : loop (n + k)%nat st = loop k (loop n st).
Proof.
  revert st. induction n as [|n IH]; intros st; [reflexivity|].
  cbn [Nat.add for_xrange]. apply IH.
Qed.

Lemma loop_events_prefix k st : l_events st `prefix_of` l_events (loop k st).
Proof.
  induction k as [|k IH]; [reflexivity|].
  rewrite loop_events_snoc. apply prefix_app_r, IH.
Qed.

End LoopGrowth.

Section UpDownExtras.

Variable get_next_trading_dt :
  datetime -> timedelta_t -> TradingEnvironment -> datetime.
Variable repr : Value -> string.

(** X1.  For a base price and an amplitude of at most 2^51 in magnitude
    the prices take two values only: every event of even index has the
    price [base_price - amplitude/2], every event of odd index the price
    [base_price + amplitude/2]. *)
Theorem updown_price_closed_form sid0 trade_count trading_environment
    base_price amplitude i p :
  (Z.abs base_price <= 2 ^ 51)%Z -> (Z.abs amplitude <= 2 ^ 51)%Z ->
  prices (fst (create_updown_trade_source get_next_trading_dt repr
                 sid0 trade_count trading_environment base_price amplitude))
    !! i = Some p ->
  has_value p (if Nat.even i
               then inject_Z base_price - inject_Z amplitude / 2
               else inject_Z base_price + inject_Z amplitude / 2)%Q.
Proof.
  intros Hb Ha Hp. apply generate_price_lookup in Hp. subst p.
  apply state_after_price_value; assumption.
Qed.

(** X2.  For a base price and an amplitude of at most 2^51 in magnitude
    the prices hover around [base_price]: the mean of the prices of two
    consecutive events is [base_price]. *)
Theorem updown_consecutive_mean sid0 trade_count trading_environment
    base_price amplitude i p p' :
  (Z.abs base_price <= 2 ^ 51)%Z -> (Z.abs amplitude <= 2 ^ 51)%Z ->
  let ps := prices (fst (create_updown_trade_source get_next_trading_dt repr
                           sid0 trade_count trading_environment
                           base_price amplitude)) in
  ps !! i = Some p -> ps !! S i = Some p' ->
  exists q q',
    has_value p q /\ has_value p' q'
    /\ ((q + q') / 2 == inject_Z base_price)%Q.
Proof.
  intros Hb Ha. cbn zeta. intros Hp Hp'.
  apply generate_price_lookup in Hp, Hp'. subst p p'.
  pose proof (state_after_price_value get_next_trading_dt sid0
                trading_environment base_price amplitude i Hb Ha) as Hi.
  pose proof (state_after_price_value get_next_trading_dt sid0
                trading_environment base_price amplitude (S i) Hb Ha) as HSi.
  rewrite Nat.even_succ, <- Nat.negb_even in HSi.
  eexists _, _. split; [exact Hi|]. split; [exact HSi|].
  destruct (Nat.even i); cbn [negb]; field.
Qed.

(** X3.  The price path is the same on every calendar: the prices depend
    on [trade_count], [base_price] and [amplitude] only, not on the sid,
    the environment or the advancement function. *)
Theorem updown_prices_calendar_free
    (other_dt : datetime -> timedelta_t -> TradingEnvironment -> datetime)
    (other_repr : Value -> string) sid0 sid1 env0 env1
    trade_count base_price amplitude :
  prices (fst (create_updown_trade_source get_next_trading_dt repr
                 sid0 trade_count env0 base_price amplitude))
  = prices (fst (create_updown_trade_source other_dt other_repr
                   sid1 trade_count env1 base_price amplitude)).
Proof.
  unfold prices. cbn [create_updown_trade_source fst event_list].
  apply loop_prices_agree; reflexivity.
Qed.

(** X4.  The timestamps are the same for every security and every price
    path: they depend on [trade_count], the environment and the
    advancement function only. *)
Theorem updown_timestamps_price_free (other_repr : Value -> string)
    sid0 sid1 trade_count trading_environment
    base_price0 amplitude0 base_price1 amplitude1 :
  timestamps (fst (create_updown_trade_source get_next_trading_dt repr
                     sid0 trade_count trading_environment
                     base_price0 amplitude0))
  = timestamps (fst (create_updown_trade_source get_next_trading_dt other_repr
                       sid1 trade_count trading_environment
                       base_price1 amplitude1)).
Proof.
  unfold timestamps. cbn [create_updown_trade_source fst event_list].
  apply loop_timestamps_agree; reflexivity.
Qed.

(** X5.  A larger trade count only appends events: the events for
    [trade_count] are a prefix of the events for any larger count. *)
Theorem updown_events_prefix sid0 trade_count trade_count'
    trading_environment base_price amplitude :
  (trade_count <= trade_count')%Z ->
  event_list (fst (create_updown_trade_source get_next_trading_dt repr
                     sid0 trade_count trading_environment
                     base_price amplitude))
  `prefix_of`
  event_list (fst (create_updown_trade_source get_next_trading_dt repr
                     sid0 trade_count' trading_environment
                     base_price amplitude)).
Proof.
  intros Hle. cbn [create_updown_trade_source fst event_list].
  replace (xrange_len (trade_count' + 2))
    with (xrange_len (trade_count + 2)
          + (xrange_len (trade_count' + 2) - xrange_len (trade_count + 2)))%nat
    by (unfold xrange_len; lia).
  rewrite loop_add. apply loop_events_prefix.
Qed.

(** X6.  When the advancement function returns a later instant, every
    timestamp lies after [first_open] and not after the [period_end] the
    call records: the recorded period covers all the events. *)
Theorem updown_timestamps_within_period sid0 trade_count trading_environment
    base_price amplitude t :
  (forall cur,
      (cur < get_next_trading_dt cur (timedelta 1) trading_environment)%Z) ->
  let r := create_updown_trade_source get_next_trading_dt repr
             sid0 trade_count trading_environment base_price amplitude in
  t ∈ timestamps (fst r) ->
  (first_open trading_environment < t <= period_end (snd r))%Z.
Proof.
  intros Hlater. cbn zeta. intros Ht.
  apply list_elem_of_lookup in Ht. destruct Ht as [i Ht].
  apply generate_timestamp_lookup in Ht. destruct Ht as [Hi ->].
  rewrite generate_period_end. split.
  - change (first_open trading_environment)
      with (l_cur (state_after get_next_trading_dt sid0 trading_environment
                               base_price amplitude 0)).
    apply state_after_cur_lt; [exact Hlater | lia].
  - destruct (decide (S i = xrange_len (trade_count + 2))) as [->|Hne];
      [reflexivity|].
    apply Z.lt_le_incl, state_after_cur_lt; [exact Hlater | lia].
Qed.

(** X7.  Sources of different integer sids have different names. *)
Theorem updown_source_id_injective (a b : Z) trade_count trade_count'
    env env' base_price base_price' amplitude amplitude' :
  a <> b ->
  source_id (fst (create_updown_trade_source get_next_trading_dt repr
                    (VInt a) trade_count env base_price amplitude))
  <> source_id (fst (create_updown_trade_source get_next_trading_dt repr
                       (VInt b) trade_count' env' base_price' amplitude')).
Proof.
  intros Hne H. apply Hne.
  cbn [create_updown_trade_source fst source_id str] in H.
  cbn in H. injection H as H. exact (pretty_Z_inj a b H).
Qed.

End UpDownExtras.

(** ** More on [create_predictable_zipline] *)

Section ComposerExtras.

Variable get_next_trading_dt :
  datetime -> timedelta_t -> TradingEnvironment -> datetime.
Variable repr : Value -> string.
Variable create_trading_environment : Result TradingEnvironment.
Variable Zipline : Type.
Variable create_test_zipline : gmap string Value -> Result Zipline.
Variable zipline_simulate : Zipline -> bool -> Result Zipline.

Local Abbreviation generate :=
  (create_updown_trade_source get_next_trading_dt repr).
Local Abbreviation run :=
  (create_predictable_zipline get_next_trading_dt repr
     create_trading_environment Zipline create_test_zipline zipline_simulate).

(** The state in which the generator is called: the copy has lost the
    three popped keys, the environment factory and the generator are logged. *)
Lemma run_arithmetic_failure st l d offset simulate sid0 env e :
  store st !! l = Some d ->
  d !! "sid" = Some sid0 ->
  create_trading_environment = Ok env ->
  arithmetic_failure (default (VInt 10) (d !! "amplitude"))
                     (default (VInt 50) (d !! "base_price"))
                     (default (VInt 3) (d !! "trade_count")) = Some e ->
  run l offset simulate st
  = (Raise e,
     mkState
       (<[fresh (dom (store st))
          := delete "trade_count" (delete "base_price" (delete "amplitude" d))]>
          (store st))
       (calls st ++ [Call_create_trading_environment;
                     Call_create_updown_trade_source])).
Proof.
  intros Hl Hsid Henv Hfail. unfold create_predictable_zipline.
  rewrite (bind_copy _ _ _ _ Hl), bind_getitem, Hsid.
  repeat rewrite bind_pop.
  rewrite bind_assoc, bind_log, bind_lift, Henv.
  unfold call_create_updown_trade_source.
  rewrite bind_assoc, bind_log, bind_assoc, bind_as_int.
  rewrite !lookup_delete_ne by done. rewrite <- app_assoc. cbn [app].
  unfold arithmetic_failure in Hfail.
  destruct (default (VInt 10) (d !! "amplitude")) as [| a | | | | | |];
    try (injection Hfail as <-; reflexivity).
  rewrite bind_assoc, bind_float_conversion.
  destruct (float_overflows a); [injection Hfail as <-; reflexivity|].
  rewrite bind_assoc, bind_as_int.
  destruct (default (VInt 50) (d !! "base_price")) as [| b | | | | | |];
    try (injection Hfail as <-; reflexivity).
  rewrite bind_assoc, bind_float_conversion.
  destruct (float_overflows b); [injection Hfail as <-; reflexivity|].
  rewrite bind_assoc, bind_as_int.
  destruct (default (VInt 3) (d !! "trade_count")) as [| tc | | | | | |];
    try (injection Hfail as <-; reflexivity).
  discriminate.
Qed.

Lemma run_factory_failure st l d offset simulate e :
  store st !! l = Some d ->
  is_Some (d !! "sid") ->
  create_trading_environment = Raise e ->
  run l offset simulate st
  = (Raise e,
     mkState
       (<[fresh (dom (store st))
          := delete "trade_count" (delete "base_price" (delete "amplitude" d))]>
          (store st))
       (calls st ++ [Call_create_trading_environment])).
Proof.
  intros Hl [sid0 Hsid] Henv. unfold create_predictable_zipline.
  rewrite (bind_copy _ _ _ _ Hl), bind_getitem, Hsid.
  repeat rewrite bind_pop.
  rewrite bind_assoc, bind_log, bind_lift, Henv. reflexivity.
Qed.

(** The run up to the call of the engine's constructor, when the
    collaborators before it do not fail. *)
Lemma run_engine_outcome st l d offset (simulate : bool) sid0 amplitude
    base_price trade_count env :
  let r := generate sid0 trade_count env base_price amplitude in
  let cfg := composed_config d sid0 trade_count (fst r) (snd r) offset in
  let has := bool_decide (is_Some (d !! "algorithm")) in
  let cs := calls st
            ++ [Call_create_trading_environment; Call_create_updown_trade_source]
            ++ (if has then [] else [Call_BuySellAlgorithm])
            ++ [Call_create_test_zipline] in
  let S' := <[fresh (dom (store st)) := cfg]> (store st) in
  store st !! l = Some d ->
  d !! "sid" = Some sid0 ->
  default (VInt 10) (d !! "amplitude") = VInt amplitude ->
  default (VInt 50) (d !! "base_price") = VInt base_price ->
  default (VInt 3) (d !! "trade_count") = VInt trade_count ->
  float_overflows amplitude = false ->
  float_overflows base_price = false ->
  create_trading_environment = Ok env ->
  run l offset simulate st
  = match create_test_zipline cfg with
    | Raise e => (Raise e, mkState S' cs)
    | Ok z0 =>
        if simulate
        then match zipline_simulate z0 true with
             | Raise e => (Raise e, mkState S' (cs ++ [Call_simulate]))
             | Ok z => (Ok (z, fresh (dom (store st))),
                        mkState S' (cs ++ [Call_simulate]))
             end
        else (Ok (z0, fresh (dom (store st))), mkState S' cs)
    end.
Proof.
  cbn zeta. intros Hl Hsid Hamp Hbase Hcount Hoa Hob Henv.
  unfold create_predictable_zipline.
  rewrite (bind_copy _ _ _ _ Hl), bind_getitem, Hsid.
  repeat rewrite bind_pop.
  rewrite bind_assoc, bind_log, bind_lift, Henv.
  unfold call_create_updown_trade_source.
  rewrite bind_assoc, bind_log, bind_assoc, bind_as_int.
  rewrite !lookup_delete_ne by done. rewrite Hamp.
  rewrite bind_assoc, bind_float_conversion, Hoa.
  rewrite bind_assoc, bind_as_int, Hbase.
  rewrite bind_assoc, bind_float_conversion, Hob.
  rewrite bind_assoc, bind_as_int, Hcount.
  rewrite bind_ret, bind_contains.
  unfold composed_config. cbn zeta.
  rewrite !lookup_delete_ne by done.
  destruct (bool_decide (is_Some (d !! "algorithm"))); cbn [negb];
    repeat run_step; unfold py_sub; repeat run_step.
  all: match goal with
       | |- context [create_test_zipline ?c] =>
           destruct (create_test_zipline c) as [z0|e]
       end.
  all: rewrite <- !app_assoc; cbn [app]; try reflexivity.
  all: destruct simulate; repeat run_step; [|reflexivity].
  all: destruct (zipline_simulate z0 true) as [z|e];
    rewrite <- !app_assoc; reflexivity.
Qed.

(** Every dict object but the new copy is left as it was. *)
Lemma run_frame st l l0 offset simulate :
  l0 <> fresh (dom (store st)) ->
  store (snd (run l offset simulate st)) !! l0 = store st !! l0.
Proof.
  intros Hne. unfold create_predictable_zipline.
  destruct (store st !! l) as [d|] eqn:Hl.
  - rewrite (bind_copy _ _ _ _ Hl).
    apply preserves_apply.
    + unfold call_create_updown_trade_source. cbn zeta. frame.
    + cbn [store]. apply lookup_insert_ne. congruence.
  - rewrite (copy_dangling _ _ _ Hl). reflexivity.
Qed.


Lemma generate_length sid0 trade_count env base_price amplitude :
  Z.of_nat (length (event_list (fst (generate sid0 trade_count env
                                       base_price amplitude))))
  = Z.max 0 (trade_count + 2).
Proof.
  rewrite generate_events. unfold state_after.
  rewrite loop_events_length. unfold xrange_len. cbn [loop_entry l_events length].
  lia.
Qed.

Ltac invert_run Hl Hrun :=
  destruct (run_inversion _ _ _ _ _ _ _ _ _ _ _ _ _ _ Hl Hrun)
    as (sid0 & a & b & tc & env & Hsid & Ha & Hb & Htc & Henv & Hl'
        & Hstore & Hcalls & z0 & Hz0 & Hz & Hoa & Hob);
  cbn zeta in Hstore, Hz0.

(** X8.  Every key of the caller's configuration other than the eight
    managed ones, the sid among them, reaches the final configuration with
    the caller's value, and no other such key appears. *)
Theorem compose_passthrough st l d offset simulate z l' st' key :
  store st !! l = Some d ->
  create_predictable_zipline get_next_trading_dt repr
    create_trading_environment Zipline create_test_zipline zipline_simulate
    l offset simulate st = (Ok (z, l'), st') ->
  key ∉ managed_keys ->
  exists cfg, store st' !! l' = Some cfg /\ cfg !! key = d !! key.
Proof.
  intros Hl Hrun Hkey. invert_run Hl Hrun.
  eexists. rewrite Hstore, lookup_insert_eq. split; [reflexivity|].
  unfold managed_keys in Hkey.
  repeat (apply not_elem_of_cons in Hkey as [? Hkey]).
  unfold composed_config. cbn zeta.
  rewrite !lookup_insert_ne by congruence.
  match goal with |- context [bool_decide ?P] => destruct (bool_decide P) end;
    rewrite ?lookup_insert_ne, !lookup_delete_ne by congruence; reflexivity.
Qed.

(** X9.  The final configuration holds the caller's algorithm when there
    is one, and otherwise the default one built from the caller's sid, the
    amount 100 and the offset of the call. *)
Theorem compose_algorithm st l d offset simulate z l' st' :
  store st !! l = Some d ->
  create_predictable_zipline get_next_trading_dt repr
    create_trading_environment Zipline create_test_zipline zipline_simulate
    l offset simulate st = (Ok (z, l'), st') ->
  exists cfg sid0,
    store st' !! l' = Some cfg
    /\ d !! "sid" = Some sid0
    /\ cfg !! "algorithm"
       = Some (default (VAlgorithm (BuySellAlgorithm sid0 100 offset))
                       (d !! "algorithm")).
Proof.
  intros Hl Hrun. invert_run Hl Hrun.
  eexists. exists sid0. rewrite Hstore, lookup_insert_eq.
  split; [reflexivity|]. split; [exact Hsid|].
  unfold composed_config. cbn zeta.
  rewrite !lookup_delete_ne by done.
  destruct (d !! "algorithm") as [alg|] eqn:Halg.
  - rewrite bool_decide_eq_true_2 by eauto. by simplify_map_eq.
  - rewrite bool_decide_eq_false_2 by (intros [? ?]; congruence).
    by simplify_map_eq.
Qed.

Ltac keys_hit := split; [intros _; eauto 10 | intros _; eexists; reflexivity].

Ltac keys_miss :=
  split;
  [ intros [? ?]; discriminate
  | intros [[_ Hn]|Hin];
    [ destruct Hn; eauto
    | repeat (destruct Hin as [Hin|Hin]; try discriminate) ] ].

(** X10.  The keys of the final configuration are the caller's keys
    without [amplitude] and [base_price], and the six keys the function
    sets. *)
Theorem compose_keys st l d offset simulate z l' st' :
  store st !! l = Some d ->
  create_predictable_zipline get_next_trading_dt repr
    create_trading_environment Zipline create_test_zipline zipline_simulate
    l offset simulate st = (Ok (z, l'), st') ->
  exists cfg,
    store st' !! l' = Some cfg
    /\ dom cfg
       = (dom d ∖ {[ "amplitude"; "base_price" ]})
         ∪ ({[ "algorithm"; "order_count"; "trade_count"; "trade_source";
               "environment"; "simulation_style" ]} : gset string).
Proof.
  intros Hl Hrun. invert_run Hl Hrun.
  eexists. rewrite Hstore, lookup_insert_eq. split; [reflexivity|].
  clear Hcalls Hz0. apply set_eq. intros k.
  rewrite elem_of_union, elem_of_difference, !elem_of_dom.
  unfold composed_config. cbn zeta. rewrite !lookup_delete_ne by done.
  set_unfold.
  destruct (decide (k = "simulation_style")) as [->|];
    [rewrite lookup_insert_eq; keys_hit | rewrite lookup_insert_ne by done].
  destruct (decide (k = "environment")) as [->|];
    [rewrite lookup_insert_eq; keys_hit | rewrite lookup_insert_ne by done].
  destruct (decide (k = "trade_source")) as [->|];
    [rewrite lookup_insert_eq; keys_hit | rewrite lookup_insert_ne by done].
  destruct (decide (k = "trade_count")) as [->|];
    [rewrite lookup_insert_eq; keys_hit | rewrite lookup_insert_ne by done].
  destruct (decide (k = "order_count")) as [->|];
    [rewrite lookup_insert_eq; keys_hit | rewrite lookup_insert_ne by done].
  destruct (decide (k = "algorithm")) as [->|].
  { case_bool_decide as Halg.
    - rewrite !lookup_delete_ne by done.
      split; [intros _; eauto 10 | intros _; exact Halg].
    - rewrite lookup_insert_eq. keys_hit. }
  assert (Hk : (if bool_decide (is_Some (d !! "algorithm"))
                then delete "trade_count"
                       (delete "base_price" (delete "amplitude" d))
                else <["algorithm" := VAlgorithm (BuySellAlgorithm sid0 100 offset)]>
                       (delete "trade_count"
                          (delete "base_price" (delete "amplitude" d)))) !! k
               = delete "base_price" (delete "amplitude" d) !! k).
  { case_bool_decide; rewrite ?lookup_insert_ne by done;
      apply lookup_delete_ne; done. }
  rewrite Hk.
  destruct (decide (k = "base_price")) as [->|];
    [rewrite lookup_delete_eq; keys_miss
    | rewrite lookup_delete_ne by done].
  destruct (decide (k = "amplitude")) as [->|];
    [rewrite lookup_delete_eq; keys_miss
    | rewrite lookup_delete_ne by done].
  intuition congruence.
Qed.


(** X12.  The trade source of the final configuration holds three events
    more than its [order_count], and none when that is negative. *)
Theorem compose_source_size st l d offset simulate z l' st' :
  store st !! l = Some d ->
  create_predictable_zipline get_next_trading_dt repr
    create_trading_environment Zipline create_test_zipline zipline_simulate
    l offset simulate st = (Ok (z, l'), st') ->
  exists cfg s order_count,
    store st' !! l' = Some cfg
    /\ cfg !! "trade_source" = Some (VSource s)
    /\ cfg !! "order_count" = Some (VInt order_count)
    /\ Z.of_nat (length (event_list s)) = Z.max 0 (order_count + 3).
Proof.
  intros Hl Hrun. invert_run Hl Hrun.
  eexists. exists (fst (generate sid0 tc env b a)), (tc - 1)%Z.
  rewrite Hstore, lookup_insert_eq. split; [reflexivity|].
  unfold composed_config. cbn zeta.
  split; [by simplify_map_eq|]. split; [by simplify_map_eq|].
  rewrite generate_length. f_equal. lia.
Qed.

(** X13.  The configuration returned is the one the engine was built
    from: the zipline returned is the constructor's result on exactly the
    returned configuration, run by [simulate] when [simulate] is true and
    untouched otherwise. *)
Theorem compose_engine_from_config st l d offset simulate z l' st' :
  store st !! l = Some d ->
  create_predictable_zipline get_next_trading_dt repr
    create_trading_environment Zipline create_test_zipline zipline_simulate
    l offset simulate st = (Ok (z, l'), st') ->
  exists cfg z0,
    store st' !! l' = Some cfg
    /\ create_test_zipline cfg = Ok z0
    /\ (if simulate then zipline_simulate z0 true = Ok z else z = z0).
Proof.
  intros Hl Hrun. invert_run Hl Hrun.
  eexists. exists z0. rewrite Hstore, lookup_insert_eq.
  split; [reflexivity|]. split; assumption.
Qed.

(** X14.  A call that returns has called, in this order: the environment
    factory, the generator, the constructor of the default algorithm only
    if the caller supplied none, the engine's constructor, and [simulate]
    only if [simulate] is true. *)
Theorem compose_call_order st l d offset simulate z l' st' :
  store st !! l = Some d ->
  create_predictable_zipline get_next_trading_dt repr
    create_trading_environment Zipline create_test_zipline zipline_simulate
    l offset simulate st = (Ok (z, l'), st') ->
  calls st'
  = calls st
    ++ [Call_create_trading_environment; Call_create_updown_trade_source]
    ++ match d !! "algorithm" with
       | Some _ => []
       | None => [Call_BuySellAlgorithm]
       end
    ++ [Call_create_test_zipline]
    ++ (if simulate then [Call_simulate] else []).
Proof.
  intros Hl Hrun. invert_run Hl Hrun.
  rewrite Hcalls. unfold calls_of_run.
  destruct (d !! "algorithm") as [alg|] eqn:Halg.
  - rewrite bool_decide_eq_true_2 by eauto. reflexivity.
  - rewrite bool_decide_eq_false_2 by (intros [? ?]; congruence). reflexivity.
Qed.

(** X15.  A failure of the environment factory comes out of the call as
    it is, and the factory is the only collaborator that was called:
    neither the generator nor the engine is reached. *)
Theorem compose_factory_failure st l d offset simulate e :
  store st !! l = Some d ->
  is_Some (d !! "sid") ->
  create_trading_environment = Raise e ->
  let r := create_predictable_zipline get_next_trading_dt repr
             create_trading_environment Zipline create_test_zipline
             zipline_simulate l offset simulate st in
  fst r = Raise e
  /\ calls (snd r) = calls st ++ [Call_create_trading_environment].
Proof.
  intros Hl Hsid Henv. cbn zeta.
  rewrite (run_factory_failure _ _ _ _ _ _ Hl Hsid Henv). split; reflexivity.
Qed.

(** X16.  When the three popped values are ints of which the amplitude and
    the base price convert to floats, and the engine's constructor raises
    on the configuration the function has built, the exception comes out
    of the call as it is and [simulate] is not called. *)
Theorem compose_constructor_failure st l d offset simulate sid0 amplitude
    base_price trade_count env e :
  let g := create_updown_trade_source get_next_trading_dt repr
             sid0 trade_count env base_price amplitude in
  let r := create_predictable_zipline get_next_trading_dt repr
             create_trading_environment Zipline create_test_zipline
             zipline_simulate l offset simulate st in
  store st !! l = Some d ->
  d !! "sid" = Some sid0 ->
  default (VInt 10) (d !! "amplitude") = VInt amplitude ->
  default (VInt 50) (d !! "base_price") = VInt base_price ->
  default (VInt 3) (d !! "trade_count") = VInt trade_count ->
  float_overflows amplitude = false ->
  float_overflows base_price = false ->
  create_trading_environment = Ok env ->
  create_test_zipline
    (composed_config d sid0 trade_count (fst g) (snd g) offset) = Raise e ->
  fst r = Raise e
  /\ calls (snd r)
     = calls st
       ++ [Call_create_trading_environment; Call_create_updown_trade_source]
       ++ match d !! "algorithm" with
          | Some _ => []
          | None => [Call_BuySellAlgorithm]
          end
       ++ [Call_create_test_zipline].
Proof.
  cbn zeta. intros Hl Hsid Ha Hb Htc Hoa Hob Henv Hraise.
  rewrite (run_engine_outcome _ _ _ _ _ _ _ _ _ _ Hl Hsid Ha Hb Htc Hoa Hob
             Henv), Hraise.
  cbn [fst snd calls]. split; [reflexivity|].
  destruct (d !! "algorithm") as [alg|] eqn:Halg.
  - rewrite bool_decide_eq_true_2 by eauto. reflexivity.
  - rewrite bool_decide_eq_false_2 by (intros [? ?]; congruence). reflexivity.
Qed.

(** X17.  When the three popped values are ints of which the amplitude and
    the base price convert to floats, and [simulate] raises, the exception
    comes out of the call as it is; the configuration the engine was built
    from is in the copy by then. *)
Theorem compose_simulate_failure st l d offset sid0 amplitude
    base_price trade_count env z0 e :
  let g := create_updown_trade_source get_next_trading_dt repr
             sid0 trade_count env base_price amplitude in
  let cfg := composed_config d sid0 trade_count (fst g) (snd g) offset in
  let r := create_predictable_zipline get_next_trading_dt repr
             create_trading_environment Zipline create_test_zipline
             zipline_simulate l offset true st in
  store st !! l = Some d ->
  d !! "sid" = Some sid0 ->
  default (VInt 10) (d !! "amplitude") = VInt amplitude ->
  default (VInt 50) (d !! "base_price") = VInt base_price ->
  default (VInt 3) (d !! "trade_count") = VInt trade_count ->
  float_overflows amplitude = false ->
  float_overflows base_price = false ->
  create_trading_environment = Ok env ->
  create_test_zipline cfg = Ok z0 ->
  zipline_simulate z0 true = Raise e ->
  fst r = Raise e
  /\ store (snd r) !! fresh (dom (store st)) = Some cfg
  /\ last (calls (snd r)) = Some Call_simulate.
Proof.
  cbn zeta. intros Hl Hsid Ha Hb Htc Hoa Hob Henv Hz0 Hraise.
  rewrite (run_engine_outcome _ _ _ _ _ _ _ _ _ _ Hl Hsid Ha Hb Htc Hoa Hob
             Henv), Hz0, Hraise.
  cbn [fst snd calls store]. split; [reflexivity|]. split.
  - apply lookup_insert_eq.
  - apply last_snoc.
Qed.

(** X18.  In the order [amplitude], [base_price], [trade_count], when the
    first of the three values that is not an int is [None] or a string,
    and the amplitude and the base price before it convert to floats, the
    call raises [TypeError] in the generator: the environment has been
    created, the engine is never built. *)
Theorem compose_type_error st l d offset simulate env :
  store st !! l = Some d ->
  is_Some (d !! "sid") ->
  create_trading_environment = Ok env ->
  no_arithmetic (default (VInt 10) (d !! "amplitude"))
  \/ (exists a,
        default (VInt 10) (d !! "amplitude") = VInt a
        /\ float_overflows a = false
        /\ (no_arithmetic (default (VInt 50) (d !! "base_price"))
            \/ exists b,
                 default (VInt 50) (d !! "base_price") = VInt b
                 /\ float_overflows b = false
                 /\ no_arithmetic (default (VInt 3) (d !! "trade_count")))) ->
  let r := create_predictable_zipline get_next_trading_dt repr
             create_trading_environment Zipline create_test_zipline
             zipline_simulate l offset simulate st in
  fst r = Raise TypeError
  /\ calls (snd r)
     = calls st ++ [Call_create_trading_environment;
                    Call_create_updown_trade_source].
Proof.
  intros Hl [sid0 Hsid] Henv Hbad. cbn zeta.
  rewrite (run_arithmetic_failure _ _ _ _ _ _ _ TypeError Hl Hsid Henv);
    [split; reflexivity|].
  unfold arithmetic_failure, no_arithmetic in *.
  destruct Hbad as [[->|[s ->]]|(a & -> & -> & Hrest)]; try reflexivity.
  destruct Hrest as [[->|[s ->]]|(b & -> & -> & [->|[s ->]])]; reflexivity.
Qed.

(** X22.  An int amplitude that does not convert to a float raises
    [OverflowError] in the generator, whatever the base price and the
    trade count are; so does such a base price when the amplitude is an int
    that converts.  The environment has been created, the engine is never
    built. *)
Theorem compose_overflow_error st l d offset simulate env :
  store st !! l = Some d ->
  is_Some (d !! "sid") ->
  create_trading_environment = Ok env ->
  (exists a,
      default (VInt 10) (d !! "amplitude") = VInt a
      /\ (float_overflows a = true
          \/ (float_overflows a = false
              /\ exists b,
                   default (VInt 50) (d !! "base_price") = VInt b
                   /\ float_overflows b = true))) ->
  let r := create_predictable_zipline get_next_trading_dt repr
             create_trading_environment Zipline create_test_zipline
             zipline_simulate l offset simulate st in
  fst r = Raise OverflowError
  /\ calls (snd r)
     = calls st ++ [Call_create_trading_environment;
                    Call_create_updown_trade_source].
Proof.
  intros Hl [sid0 Hsid] Henv Hbad. cbn zeta.
  rewrite (run_arithmetic_failure _ _ _ _ _ _ _ OverflowError Hl Hsid Henv);
    [split; reflexivity|].
  unfold arithmetic_failure.
  destruct Hbad as (a & -> & [-> | (-> & b & -> & ->)]); reflexivity.
Qed.

(** X19.  Whatever the outcome, every dict object that existed before the
    call holds after it what it held before; the call writes to its own
    copy only. *)
Theorem compose_store_frame st l l0 offset simulate :
  is_Some (store st !! l0) ->
  store (snd (create_predictable_zipline get_next_trading_dt repr
                create_trading_environment Zipline create_test_zipline
                zipline_simulate l offset simulate st)) !! l0
  = store st !! l0.
Proof.
  intros [d0 Hl0]. apply run_frame. intros E.
  apply (fresh_ref_ne _ _ _ Hl0). congruence.
Qed.

(** X20.  The configuration returned is a new dict object: its reference
    was not in use before the call, and it is not the caller's. *)
Theorem compose_returns_new_object st l d offset simulate z l' st' :
  store st !! l = Some d ->
  create_predictable_zipline get_next_trading_dt repr
    create_trading_environment Zipline create_test_zipline zipline_simulate
    l offset simulate st = (Ok (z, l'), st') ->
  store st !! l' = None /\ l' <> l /\ is_Some (store st' !! l').
Proof.
  intros Hl Hrun. invert_run Hl Hrun. subst l'. split; [|split].
  - apply not_elem_of_dom, is_fresh.
  - apply (fresh_ref_ne _ _ _ Hl).
  - rewrite Hstore, lookup_insert_eq. eauto.
Qed.

(** X21.  Two calls in a row on the same configuration that both return
    give two different dict objects holding the same configuration, and
    the second call leaves the result of the first as it is. *)
Theorem compose_twice st l d offset simulate z1 l1 st1 z2 l2 st2 :
  store st !! l = Some d ->
  create_predictable_zipline get_next_trading_dt repr
    create_trading_environment Zipline create_test_zipline zipline_simulate
    l offset simulate st = (Ok (z1, l1), st1) ->
  create_predictable_zipline get_next_trading_dt repr
    create_trading_environment Zipline create_test_zipline zipline_simulate
    l offset simulate st1 = (Ok (z2, l2), st2) ->
  l1 <> l2
  /\ exists cfg,
       store st1 !! l1 = Some cfg
       /\ store st2 !! l1 = Some cfg
       /\ store st2 !! l2 = Some cfg.
Proof.
  intros Hl Hrun1 Hrun2.
  destruct (run_inversion _ _ _ _ _ _ _ _ _ _ _ _ _ _ Hl Hrun1)
    as (sid1 & a1 & b1 & tc1 & env1 & Hsid1 & Ha1 & Hb1 & Htc1 & Henv1 & Hl1
        & Hstore1 & _).
  cbn zeta in Hstore1.
  assert (Hl_after : store st1 !! l = Some d).
  { rewrite Hstore1, lookup_insert_ne; [exact Hl|].
    subst l1. apply (fresh_ref_ne _ _ _ Hl). }
  destruct (run_inversion _ _ _ _ _ _ _ _ _ _ _ _ _ _ Hl_after Hrun2)
    as (sid2 & a2 & b2 & tc2 & env2 & Hsid2 & Ha2 & Hb2 & Htc2 & Henv2 & Hl2
        & Hstore2 & _).
  cbn zeta in Hstore2.
  assert (sid2 = sid1) as -> by congruence.
  assert (a2 = a1) as -> by congruence.
  assert (b2 = b1) as -> by congruence.
  assert (tc2 = tc1) as -> by congruence.
  assert (env2 = env1) as -> by congruence.
  assert (Hcfg1 : store st1 !! l1
                  = Some (composed_config d sid1 tc1
                            (fst (generate sid1 tc1 env1 b1 a1))
                            (snd (generate sid1 tc1 env1 b1 a1)) offset)).
  { rewrite Hstore1. apply lookup_insert_eq. }
  assert (Hne : l1 <> l2).
  { intros E. apply (fresh_ref_ne (store st1) l1 _ Hcfg1).
    rewrite <- Hl2. symmetry. exact E. }
  split; [exact Hne|]. eexists. split; [exact Hcfg1|]. split.
  - rewrite Hstore2, lookup_insert_ne by congruence. exact Hcfg1.
  - rewrite Hstore2. apply lookup_insert_eq.
Qed.

End ComposerExtras.

(** ** The further theorems on the sample collaborators *)

Lemma every_day_later cur env : (cur < every_day cur (timedelta 1) env)%Z.
Proof. unfold every_day, timedelta. lia. Qed.

Lemma updown_price_closed_form_witness :
  (Z.abs 50 <= 2 ^ 51)%Z
  /\ (Z.abs 10 <= 2 ^ 51)%Z
  /\ has_value (S754_finite false 7740561859543040 (-47))
               (inject_Z 50 + inject_Z 10 / 2).
Proof.
  split; [exact (proj1 fifty_and_ten_in_range)|].
  split; [exact (proj2 fifty_and_ten_in_range)|].
  exact (updown_price_closed_form every_day no_repr (VInt 1) 3
           sample_environment 50 10 3%nat
           (S754_finite false 7740561859543040 (-47))
           (proj1 fifty_and_ten_in_range) (proj2 fifty_and_ten_in_range)
           eq_refl).
Defined.

Lemma updown_consecutive_mean_witness :
  exists q q',
    has_value (S754_finite false 7740561859543040 (-47)) q
    /\ has_value (S754_finite false 6333186975989760 (-47)) q'
    /\ ((q + q') / 2 == inject_Z 50)%Q.
Proof.
  exact (updown_consecutive_mean every_day no_repr (VInt 1) 3
           sample_environment 50 10 1%nat
           (S754_finite false 7740561859543040 (-47))
           (S754_finite false 6333186975989760 (-47))
           (proj1 fifty_and_ten_in_range) (proj2 fifty_and_ten_in_range)
           eq_refl eq_refl).
Defined.

Lemma updown_events_prefix_witness :
  (1 <= 3)%Z
  /\ event_list (fst (create_updown_trade_source every_day no_repr (VInt 1) 1
                        sample_environment 50 10))
     `prefix_of`
     event_list (fst (create_updown_trade_source every_day no_repr (VInt 1) 3
                        sample_environment 50 10)).
Proof.
  split; [lia|].
  apply (updown_events_prefix every_day no_repr (VInt 1) 1 3
           sample_environment 50 10). lia.
Defined.

Lemma updown_timestamps_within_period_witness :
  let r := create_updown_trade_source every_day no_repr (VInt 1) 3
             sample_environment 50 10 in
  259200000000%Z ∈ timestamps (fst r)
  /\ (first_open sample_environment < 259200000000 <= period_end (snd r))%Z.
Proof.
  cbn zeta.
  assert (H : 259200000000%Z
              ∈ timestamps (fst (create_updown_trade_source every_day no_repr
                                   (VInt 1) 3 sample_environment 50 10))).
  { apply list_elem_of_lookup. exists 2%nat. reflexivity. }
  split; [exact H|].
  exact (updown_timestamps_within_period every_day no_repr (VInt 1) 3
           sample_environment 50 10 259200000000
           (fun cur => every_day_later cur sample_environment) H).
Defined.

Lemma updown_source_id_injective_witness :
  source_id (fst (create_updown_trade_source every_day no_repr (VInt 1) 3
                    sample_environment 50 10))
  <> source_id (fst (create_updown_trade_source every_day no_repr (VInt 12) 3
                       sample_environment 50 10)).
Proof.
  apply (updown_source_id_injective every_day no_repr 1 12). lia.
Defined.

Lemma sample_run_overrides :
  sample_run config_overrides 5 false
  = (Ok (false, 2%positive), snd (sample_run config_overrides 5 false)).
Proof. vm_compute. reflexivity. Qed.

Lemma sample_run_again_full :
  sample_run_again config_full 0 true
  = (Ok (true, 3%positive), snd (sample_run_again config_full 0 true)).
Proof. vm_compute. reflexivity. Qed.

Lemma capital_base_not_managed : "capital_base" ∉ managed_keys.
Proof.
  unfold managed_keys. repeat (apply not_elem_of_cons; split; [discriminate|]).
  apply not_elem_of_nil.
Qed.

Lemma compose_passthrough_witness :
  config_full !! "capital_base" = Some (VInt 100000)
  /\ exists cfg,
       store (snd (sample_run config_full 0 true)) !! 2%positive = Some cfg
       /\ cfg !! "capital_base" = config_full !! "capital_base".
Proof.
  split; [reflexivity|].
  apply (compose_passthrough every_day no_repr (Ok sample_environment) bool
           sample_create sample_simulate (sample_state config_full)
           1%positive config_full 0 true true 2%positive
           (snd (sample_run config_full 0 true)) "capital_base"
           eq_refl sample_run_full capital_base_not_managed).
Defined.

Lemma compose_algorithm_witness :
  config_overrides !! "algorithm" = Some (VAlgorithm (UserAlgorithm "mine"))
  /\ exists cfg sid0,
       store (snd (sample_run config_overrides 5 false)) !! 2%positive = Some cfg
       /\ config_overrides !! "sid" = Some sid0
       /\ cfg !! "algorithm"
          = Some (default (VAlgorithm (BuySellAlgorithm sid0 100 5))
                          (config_overrides !! "algorithm")).
Proof.
  split; [reflexivity|].
  apply (compose_algorithm every_day no_repr (Ok sample_environment) bool
           sample_create sample_simulate (sample_state config_overrides)
           1%positive config_overrides 5 false false 2%positive
           (snd (sample_run config_overrides 5 false))
           eq_refl sample_run_overrides).
Defined.

Lemma compose_keys_witness :
  exists cfg,
    store (snd (sample_run config_full 0 true)) !! 2%positive = Some cfg
    /\ dom cfg
       = (dom config_full ∖ {[ "amplitude"; "base_price" ]})
         ∪ ({[ "algorithm"; "order_count"; "trade_count"; "trade_source";
               "environment"; "simulation_style" ]} : gset string).
Proof.
  apply (compose_keys every_day no_repr (Ok sample_environment) bool
           sample_create sample_simulate (sample_state config_full)
           1%positive config_full 0 true true 2%positive
           (snd (sample_run config_full 0 true)) eq_refl sample_run_full).
Defined.


Lemma compose_source_size_witness :
  exists cfg s order_count,
    store (snd (sample_run config_full 0 true)) !! 2%positive = Some cfg
    /\ cfg !! "trade_source" = Some (VSource s)
    /\ cfg !! "order_count" = Some (VInt order_count)
    /\ Z.of_nat (length (event_list s)) = Z.max 0 (order_count + 3).
Proof.
  apply (compose_source_size every_day no_repr (Ok sample_environment) bool
           sample_create sample_simulate (sample_state config_full)
           1%positive config_full 0 true true 2%positive
           (snd (sample_run config_full 0 true)) eq_refl sample_run_full).
Defined.

Lemma compose_engine_from_config_witness :
  exists cfg z0,
    store (snd (sample_run config_full 0 true)) !! 2%positive = Some cfg
    /\ sample_create cfg = Ok z0
    /\ sample_simulate z0 true = Ok true.
Proof.
  apply (compose_engine_from_config every_day no_repr (Ok sample_environment)
           bool sample_create sample_simulate (sample_state config_full)
           1%positive config_full 0 true true 2%positive
           (snd (sample_run config_full 0 true)) eq_refl sample_run_full).
Defined.

Lemma compose_call_order_witness :
  calls (snd (sample_run config_overrides 5 false))
  = [Call_create_trading_environment; Call_create_updown_trade_source;
     Call_create_test_zipline].
Proof.
  apply (compose_call_order every_day no_repr (Ok sample_environment)
           bool sample_create sample_simulate (sample_state config_overrides)
           1%positive config_overrides 5 false false 2%positive
           (snd (sample_run config_overrides 5 false))
           eq_refl sample_run_overrides).
Defined.

Lemma compose_factory_failure_witness :
  is_Some (config_full !! "sid")
  /\ fst (sample_run_no_environment config_full)
     = Raise (CollaboratorFailure "create_trading_environment")
  /\ calls (snd (sample_run_no_environment config_full))
     = [Call_create_trading_environment].
Proof.
  assert (Hsid : is_Some (config_full !! "sid")) by (eexists; reflexivity).
  split; [exact Hsid|].
  exact (compose_factory_failure every_day no_repr
           (Raise (CollaboratorFailure "create_trading_environment"))
           bool sample_create sample_simulate (sample_state config_full)
           1%positive config_full 0 true
           (CollaboratorFailure "create_trading_environment")
           eq_refl Hsid eq_refl).
Defined.

Lemma compose_constructor_failure_witness :
  fst (sample_run_no_engine config_full)
  = Raise (CollaboratorFailure "create_test_zipline")
  /\ calls (snd (sample_run_no_engine config_full))
     = [Call_create_trading_environment; Call_create_updown_trade_source;
        Call_BuySellAlgorithm; Call_create_test_zipline].
Proof.
  exact (compose_constructor_failure every_day no_repr (Ok sample_environment)
           bool failing_create sample_simulate (sample_state config_full)
           1%positive config_full 0 true (VInt 7) 4 20 6 sample_environment
           (CollaboratorFailure "create_test_zipline")
           eq_refl eq_refl eq_refl eq_refl eq_refl eq_refl eq_refl eq_refl
           eq_refl).
Defined.

Lemma compose_simulate_failure_witness :
  fst (sample_run_no_simulate config_full)
  = Raise (CollaboratorFailure "simulate")
  /\ is_Some (store (snd (sample_run_no_simulate config_full)) !! 2%positive)
  /\ last (calls (snd (sample_run_no_simulate config_full)))
     = Some Call_simulate.
Proof.
  destruct (compose_simulate_failure every_day no_repr (Ok sample_environment)
              bool sample_create failing_simulate (sample_state config_full)
              1%positive config_full 0 (VInt 7) 4 20 6 sample_environment
              false (CollaboratorFailure "simulate")
              eq_refl eq_refl eq_refl eq_refl eq_refl eq_refl eq_refl eq_refl
              eq_refl eq_refl)
    as (Hfst & Hstore & Hlast).
  split; [exact Hfst|]. split; [|exact Hlast].
  eexists. exact Hstore.
Defined.

Lemma compose_type_error_witness :
  let d := <["trade_count" := VStr "three"]> config_sid_only in
  no_arithmetic (default (VInt 3) (d !! "trade_count"))
  /\ fst (sample_run d 0 true) = Raise TypeError
  /\ calls (snd (sample_run d 0 true))
     = [Call_create_trading_environment; Call_create_updown_trade_source].
Proof.
  cbn zeta.
  assert (Hbad : no_arithmetic
                   (default (VInt 3)
                      (<["trade_count" := VStr "three"]> config_sid_only
                       !! "trade_count")))
    by (right; eexists; reflexivity).
  split; [exact Hbad|].
  apply (compose_type_error every_day no_repr (Ok sample_environment)
           bool sample_create sample_simulate
           (sample_state (<["trade_count" := VStr "three"]> config_sid_only))
           1%positive (<["trade_count" := VStr "three"]> config_sid_only)
           0 true sample_environment eq_refl).
  - eexists; reflexivity.
  - reflexivity.
  - right. exists 10%Z. split; [reflexivity|]. split; [reflexivity|].
    right. exists 50%Z. split; [reflexivity|]. split; [reflexivity|].
    exact Hbad.
Defined.

(** A string trade count does not hide an amplitude that is too large:
    line 43 comes first. *)
Lemma compose_overflow_error_witness :
  let d := <["amplitude" := VInt (10 ^ 400)]>
             (<["trade_count" := VStr "three"]> config_sid_only) in
  float_overflows (10 ^ 400) = true
  /\ fst (sample_run d 0 true) = Raise OverflowError
  /\ calls (snd (sample_run d 0 true))
     = [Call_create_trading_environment; Call_create_updown_trade_source].
Proof.
  cbn zeta.
  assert (Hbig : float_overflows (10 ^ 400) = true) by (vm_compute; reflexivity).
  split; [exact Hbig|].
  apply (compose_overflow_error every_day no_repr (Ok sample_environment)
           bool sample_create sample_simulate
           (sample_state (<["amplitude" := VInt (10 ^ 400)]>
                            (<["trade_count" := VStr "three"]> config_sid_only)))
           1%positive
           (<["amplitude" := VInt (10 ^ 400)]>
              (<["trade_count" := VStr "three"]> config_sid_only))
           0 true sample_environment eq_refl).
  - eexists; reflexivity.
  - reflexivity.
  - exists (10 ^ 400)%Z. split; [reflexivity|]. left. exact Hbig.
Defined.

Lemma compose_store_frame_witness :
  is_Some (store (sample_state config_full) !! 1%positive)
  /\ store (snd (sample_run config_full 0 true)) !! 1%positive
     = Some config_full.
Proof.
  assert (H : is_Some (store (sample_state config_full) !! 1%positive))
    by (eexists; reflexivity).
  split; [exact H|].
  exact (compose_store_frame every_day no_repr (Ok sample_environment)
           bool sample_create sample_simulate (sample_state config_full)
           1%positive 1%positive 0 true H).
Defined.

Lemma compose_returns_new_object_witness :
  store (sample_state config_full) !! 2%positive = None
  /\ 2%positive <> 1%positive
  /\ is_Some (store (snd (sample_run config_full 0 true)) !! 2%positive).
Proof.
  exact (compose_returns_new_object every_day no_repr (Ok sample_environment)
           bool sample_create sample_simulate (sample_state config_full)
           1%positive config_full 0 true true 2%positive
           (snd (sample_run config_full 0 true)) eq_refl sample_run_full).
Defined.

Lemma compose_twice_witness :
  2%positive <> 3%positive
  /\ exists cfg,
       store (snd (sample_run config_full 0 true)) !! 2%positive = Some cfg
       /\ store (snd (sample_run_again config_full 0 true)) !! 2%positive
          = Some cfg
       /\ store (snd (sample_run_again config_full 0 true)) !! 3%positive
          = Some cfg.
Proof.
  exact (compose_twice every_day no_repr (Ok sample_environment)
           bool sample_create sample_simulate (sample_state config_full)
           1%positive config_full 0 true true 2%positive
           (snd (sample_run config_full 0 true)) true 3%positive
           (snd (sample_run_again config_full 0 true))
           eq_refl sample_run_full sample_run_again_full).
Defined.
